(** * Dynamic vat creation (SwingSet kernel, [dynamicVat.js])

    A shallow embedding of [makeDynamicVatCreator] and of the closures that
    [createVatDynamically] builds, together with the properties of the
    creation pipeline and of the termination notifier.

    - JavaScript values are an inductive type [JS.Value] carrying what the
      source inspects: [typeof], truthiness, property reads, template-literal
      stringification and [JSON.stringify].
    - The collaborators received through the [stuff] argument, and the
      imported [importBundle], [makeVatSlot] and [makeLiveSlots], are fields
      of two records.  Each may return or throw, and each may depend on the
      calls made so far: the history of calls is the only kernel state the
      source touches.
    - The promise chain at the end of [createVatDynamically] is a list of
      reactions run by a job machine: one [Tick] runs one promise job to
      completion.  The bookkeeping jobs by which a promise adopts the state
      of the promise an async function returned are one [Adopting] step, so
      the machine never runs more jobs than JavaScript does: its job counts
      are lower bounds for JavaScript.
    - The promise of [importBundle] fulfils, rejects or never settles; which
      of the three is decided by the loader when it is called. *)

From Stdlib Require Import String Ascii List ZArith Bool Arith Lia DecimalString.
Import ListNotations.

Set Warnings "-register-all".
Open Scope string_scope.

(* ================================================================== *)
(** ** JavaScript values *)
(* ================================================================== *)

Module JS.

(** Values.  Numbers are the integer-valued ones, meant below 1e21 in
    magnitude, where JavaScript prints them in plain digits; strings are
    byte strings.  [JObject] is a plain data object (insertion-ordered own
    properties, no accessors, no user-defined [toString]); [JError name
    message] is an [Error] instance; [JFunction name src] is a function with
    its name and source text.  There is no Symbol: every value of the model
    can be stringified. *)
Inductive Value : Type :=
| JUndefined
| JNull
| JBool (b : bool)
| JNumber (n : Z)
| JString (s : string)
| JArray (items : list Value)
| JObject (fields : list (string * Value))
| JFunction (name src : string)
| JError (name message : string).

(** [Error(message)]: the [name] is inherited from [Error.prototype]. *)
Definition Error (message : string) : Value := JError "Error" message.

(** The [typeof] operator. *)
Definition typeof (v : Value) : string :=
  match v with
  | JUndefined => "undefined"
  | JNull => "object"
  | JBool _ => "boolean"
  | JNumber _ => "number"
  | JString _ => "string"
  | JArray _ => "object"
  | JObject _ => "object"
  | JFunction _ _ => "function"
  | JError _ _ => "object"
  end.

(** ToBoolean, as used by the conditional operator. *)
Definition truthy (v : Value) : bool :=
  match v with
  | JUndefined => false
  | JNull => false
  | JBool b => b
  | JNumber n => negb (Z.eqb n 0)
  | JString s => negb (String.eqb s "")
  | _ => true
  end.

Fixpoint lookup (k : string) (fields : list (string * Value)) : option Value :=
  match fields with
  | [] => None
  | (k', v) :: rest => if String.eqb k k' then Some v else lookup k rest
  end.

(** Property read [v.k] for the property names the source reads ([name],
    [message], [buildRootObject]); a missing property reads as [undefined].
    The source never reads a property of [undefined] or [null]. *)
Definition get (v : Value) (k : string) : Value :=
  match v with
  | JObject fields =>
      match lookup k fields with Some x => x | None => JUndefined end
  | JError name message =>
      if String.eqb k "name" then JString name
      else if String.eqb k "message" then JString message
      else JUndefined
  | JFunction name _ =>
      if String.eqb k "name" then JString name else JUndefined
  | _ => JUndefined
  end.

Fixpoint join (sep : string) (parts : list string) : string :=
  match parts with
  | [] => ""
  | [p] => p
  | p :: rest => p ++ sep ++ join sep rest
  end.

Definition decimal (n : Z) : string := NilZero.string_of_int (Z.to_int n).

(** ToString, as performed by a template literal [`${v}`].
    [Error.prototype.toString] gives [name + ": " + message], or the
    non-empty one of the two when the other is empty. *)
Fixpoint toString (v : Value) : string :=
  match v with
  | JUndefined => "undefined"
  | JNull => "null"
  | JBool true => "true"
  | JBool false => "false"
  | JNumber n => decimal n
  | JString s => s
  | JArray items =>
      join ","
        (map (fun x =>
                match x with
                | JUndefined => ""
                | JNull => ""
                | _ => toString x
                end) items)
  | JObject _ => "[object Object]"
  | JFunction _ src => src
  | JError name message =>
      if String.eqb name "" then message
      else if String.eqb message "" then name
      else name ++ ": " ++ message
  end.

Definition dquote : ascii := "034"%char.
Definition backslash : ascii := "092"%char.

Definition hexDigit (n : nat) : ascii :=
  match n with
  | 0 => "0" | 1 => "1" | 2 => "2" | 3 => "3" | 4 => "4"
  | 5 => "5" | 6 => "6" | 7 => "7" | 8 => "8" | 9 => "9"
  | 10 => "a" | 11 => "b" | 12 => "c" | 13 => "d" | 14 => "e"
  | _ => "f"
  end%char.

(** One code unit of QuoteJSONString. *)
Definition escapeChar (c : ascii) : string :=
  let n := nat_of_ascii c in
  if Nat.eqb n 34 then String backslash (String dquote "")
  else if Nat.eqb n 92 then String backslash (String backslash "")
  else if Nat.eqb n 8 then String backslash "b"
  else if Nat.eqb n 12 then String backslash "f"
  else if Nat.eqb n 10 then String backslash "n"
  else if Nat.eqb n 13 then String backslash "r"
  else if Nat.eqb n 9 then String backslash "t"
  else if Nat.ltb n 32 then
    String backslash
      (String "u" (String "0" (String "0"
         (String (hexDigit (n / 16)) (String (hexDigit (n mod 16)) "")))))
  else String c "".

Fixpoint escapeString (s : string) : string :=
  match s with
  | EmptyString => ""
  | String c rest => escapeChar c ++ escapeString rest
  end.

Definition quoteJSONString (s : string) : string :=
  String dquote (escapeString s ++ String dquote "").

(** SerializeJSONProperty: [None] is the [undefined] result, which an array
    prints as [null] and an object leaves out. *)
Fixpoint serialize (v : Value) : option string :=
  match v with
  | JUndefined => None
  | JNull => Some "null"
  | JBool true => Some "true"
  | JBool false => Some "false"
  | JNumber n => Some (decimal n)
  | JString s => Some (quoteJSONString s)
  | JArray items =>
      Some ("[" ++
            join ","
              (map (fun x =>
                      match serialize x with
                      | Some s => s
                      | None => "null"
                      end) items)
            ++ "]")
  | JObject fields =>
      Some ("{" ++
            join ","
              (flat_map (fun kv =>
                           match serialize (snd kv) with
                           | Some s => [quoteJSONString (fst kv) ++ ":" ++ s]
                           | None => []
                           end) fields)
            ++ "}")
  | JFunction _ _ => None
  | JError _ _ => Some "{}"
  end.

(** [JSON.stringify(v)], a string or [undefined]. *)
Definition JSON_stringify (v : Value) : Value :=
  match serialize v with
  | Some s => JString s
  | None => JUndefined
  end.

End JS.

Import JS.

Arguments JSON_stringify : simpl never.

(* ================================================================== *)
(** ** Kernel-facing data *)
(* ================================================================== *)

Definition VatID := string.
Definition VatSlot := string.
Definition KernelSlot := string.

(** Result of a synchronous call: a returned value or a thrown one. *)
Inductive Outcome (A : Type) : Type :=
| Ret (a : A)
| Throw (e : Value).

Arguments Ret {A} a.
Arguments Throw {A} e.

(** Eventual state of a promise handed to the pipeline. *)
Inductive Settles (A : Type) : Type :=
| Fulfils (a : A)
| Rejects (e : Value)
| NeverSettles.

Arguments Fulfils {A} a.
Arguments Rejects {A} e.
Arguments NeverSettles {A}.

(** The options object given to [makeGetMeter]. *)
Record MeterOptions : Type := mkMeterOptions {
  refillEachCrank : bool;
  refillIfExhausted : bool
}.

(** What [makeGetMeter] returns; the pipeline reads its [getMeter] only. *)
Record MeterRecord : Type := mkMeterRecord {
  getMeter : Value
}.

(** The module namespace that [importBundle] resolves to. *)
Definition Namespace := list (string * Value).

(** The options object given to [importBundle]. *)
Record ImportOptions : Type := mkImportOptions {
  filePrefix : VatID;
  endowments : Value;
  inescapableTransforms : list (string -> Outcome string);
  inescapableGlobalLexicals : list (string * Value)
}.

Record Helpers : Type := mkHelpers {
  helpers_vatID : VatID
}.

(** The [setup(syscall, state, helpers, _vatPowers)] closure. *)
Definition Setup := Value -> Value -> Helpers -> Value -> Outcome Value.

(** One call to a collaborator, with its arguments and its result.  The
    [notifyTermination] closure passed to [addVatManager] is not data: it is
    the [Terminate] action of the job machine below. *)
Inductive Event : Type :=
| CallAllocateUnusedVatID (r : Outcome VatID)
| CallMakeGetMeter (options : MeterOptions) (r : Outcome MeterRecord)
| CallVatNameToID (name : string) (r : Outcome VatID)
| CallMakeVatEndowments (vatID : VatID) (r : Outcome Value)
| CallImportBundle (bundle : Value) (options : ImportOptions)
                   (r : Settles Namespace)
| CallAddVatManager (vatID : VatID) (name : string) (setup : Setup)
                    (options : Value) (meterRecord : MeterRecord)
                    (r : Outcome unit)
| CallAddExport (vatID : VatID) (vatSlot : VatSlot) (r : Outcome KernelSlot)
| CallQueueToExport (vatID : VatID) (vatSlot : VatSlot) (method : string)
                    (args : Value) (policy : string) (r : Outcome unit)
| CallConsoleError (msg : string) (err : Value).

Definition History := list Event.

(** The [stuff] argument of [makeDynamicVatCreator].  A collaborator's
    result may depend on the calls made before it. *)
Record Stuff : Type := mkStuff {
  allocateUnusedVatID : History -> Outcome VatID;
  vatNameToID : History -> string -> Outcome VatID;
  makeVatEndowments : History -> VatID -> Outcome Value;
  dynamicVatPowers : Value;
  transformMetering : string -> Value -> Outcome string;
  makeGetMeter : History -> MeterOptions -> Outcome MeterRecord;
  addVatManager :
    History -> VatID -> string -> Setup -> Value -> MeterRecord ->
    Outcome unit;
  addExport : History -> VatID -> VatSlot -> Outcome KernelSlot;
  queueToExport :
    History -> VatID -> VatSlot -> string -> Value -> string -> Outcome unit
}.

(** The three imports of the module.  A synchronous throw of [importBundle]
    inside the async function is a rejection, so it is [Rejects]. *)
Record Imports : Type := mkImports {
  importBundle : History -> Value -> ImportOptions -> Settles Namespace;
  makeVatSlot : string -> bool -> Z -> VatSlot;
  makeLiveSlots : Value -> Value -> Value -> VatID -> Value -> Outcome Value
}.

(** Mutable state seen by one [createVatDynamically] call: the calls made so
    far and the closure variable [terminated]. *)
Record World : Type := mkWorld {
  history : History;
  terminated : bool
}.

(** The constants captured by the closures of one call. *)
Record Closure : Type := mkClosure {
  vatSourceBundle : Value;
  vatID : VatID;
  meterRecord : MeterRecord
}.

(* ================================================================== *)
(** ** State and exception monad *)
(* ================================================================== *)

Definition M (A : Type) : Type := World -> Outcome A * World.

Definition ret {A : Type} (a : A) : M A := fun w => (Ret a, w).

Definition bind {A B : Type} (m : M A) (k : A -> M B) : M B :=
  fun w =>
    match m w with
    | (Ret a, w') => k a w'
    | (Throw e, w') => (Throw e, w')
    end.

Notation "x <- m ;; k" := (bind m (fun x => k))
  (at level 61, m at next level, right associativity).
Notation "m ;; k" := (bind m (fun _ => k))
  (at level 61, right associativity).

Definition log (ev : Event) (w : World) : World :=
  {| history := (history w ++ [ev])%list; terminated := terminated w |}.

(** Call a collaborator: ask it for its result given the calls so far, and
    record the call. *)
Definition invoke {A : Type} (oracle : History -> Outcome A)
    (record : Outcome A -> Event) : M A :=
  fun w => let r := oracle (history w) in (r, log (record r) w).

Definition setTerminated (b : bool) : M unit :=
  fun w => (Ret tt, {| history := history w; terminated := b |}).

(* ================================================================== *)
(** ** Promise chain *)
(* ================================================================== *)

(** What calling a handler yields: a value, an exception, or (for an async
    function) a promise with its eventual state. *)
Inductive Completion : Type :=
| Normal (v : Value)
| Abrupt (e : Value)
| Awaits (p : Settles Value).

Definition Handler := Value -> World -> Completion * World.

Definition sync (body : Value -> M Value) : Handler :=
  fun arg w =>
    match body arg w with
    | (Ret v, w') => (Normal v, w')
    | (Throw e, w') => (Abrupt e, w')
    end.

(** One link of a chain: [.then(f)], [.then(f, g)] or [.catch(g)]. *)
Record Reaction : Type := mkReaction {
  onFulfilled : option Handler;
  onRejected : option Handler
}.

Definition then_ (f : Handler) : Reaction :=
  {| onFulfilled := Some f; onRejected := None |}.
Definition then2 (f g : Handler) : Reaction :=
  {| onFulfilled := Some f; onRejected := Some g |}.
Definition catch_ (g : Handler) : Reaction :=
  {| onFulfilled := None; onRejected := Some g |}.

Inductive Settled : Type :=
| Fulfilled (v : Value)
| Rejected (e : Value).

(** Where a chain stands.  [Job i s]: the promise feeding link [i] has
    settled as [s] and the reaction job of link [i] is queued.
    [Adopting i p]: the handler of link [i] returned the promise [p], whose
    state the derived promise will take.  [Finished s]: the last promise of
    the chain has settled; [Finished (Rejected e)] is an unhandled
    rejection. *)
Inductive Pipe : Type :=
| Job (link : nat) (input : Settled)
| Adopting (link : nat) (p : Settles Value)
| Finished (final : Settled).

Definition settle (chain : list Reaction) (i : nat) (s : Settled) : Pipe :=
  match nth_error chain (S i) with
  | Some _ => Job (S i) s
  | None => Finished s
  end.

Definition react (r : Reaction) (s : Settled) : option (Handler * Value) :=
  match s with
  | Fulfilled v =>
      match onFulfilled r with Some h => Some (h, v) | None => None end
  | Rejected e =>
      match onRejected r with Some h => Some (h, e) | None => None end
  end.

(** Run one promise job of the chain to completion. *)
Definition runJob (chain : list Reaction) (p : Pipe) (w : World)
  : Pipe * World :=
  match p with
  | Job i s =>
      match nth_error chain i with
      | None => (Finished s, w)
      | Some r =>
          match react r s with
          | None => (settle chain i s, w)
          | Some (h, arg) =>
              match h arg w with
              | (Normal v, w') => (settle chain i (Fulfilled v), w')
              | (Abrupt e, w') => (settle chain i (Rejected e), w')
              | (Awaits q, w') => (Adopting i q, w')
              end
          end
      end
  | Adopting i (Fulfils v) => (settle chain i (Fulfilled v), w)
  | Adopting i (Rejects e) => (settle chain i (Rejected e), w)
  | Adopting i NeverSettles => (p, w)
  | Finished _ => (p, w)
  end.

(* ================================================================== *)
(** ** The source functions *)
(* ================================================================== *)

(** [makeVatRootObjectSlot()]. *)
Definition makeVatRootObjectSlot (imp : Imports) : VatSlot :=
  makeVatSlot imp "object" true 0%Z.

(** The functions nested in [createVatDynamically], with the variables they
    close over ([stuff], the imports, and [vatSourceBundle], [vatID],
    [meterRecord]) as arguments; [terminated] lives in the [World]. *)
Section Closures.

Variable stuff : Stuff.
Variable imp : Imports.
Variable c : Closure.

Definition notifyTermination (error : Value) : M Value :=
  fun w =>
    if terminated w then (Ret JUndefined, w)
    else
      (setTerminated true ;;
       vatAdminVatId <-
         invoke (fun h => vatNameToID stuff h "vatAdmin")
                (CallVatNameToID "vatAdmin") ;;
       let vatAdminRootObjectSlot := makeVatRootObjectSlot imp in
       let args :=
         JObject
           [("body",
             JSON_stringify
               (JArray
                  [JString (vatID c);
                   if truthy error
                   then JObject [("@qclass", JString "error");
                                 ("name", get error "name");
                                 ("message", get error "message")]
                   else JObject [("@qclass", JString "undefined")]]));
            ("slots", JArray [])] in
       invoke (fun h => queueToExport stuff h vatAdminVatId
                          vatAdminRootObjectSlot "vatTerminated" args
                          "logFailure")
              (CallQueueToExport vatAdminVatId vatAdminRootObjectSlot
                 "vatTerminated" args "logFailure") ;;
       ret JUndefined) w.

(** The part of [makeBuildRootObject] after [await importBundle(...)]. *)
Definition afterImport (loaded : Settles Namespace) : Settles Value :=
  match loaded with
  | Fulfils vatNS =>
      if negb (String.eqb (typeof (get (JObject vatNS) "buildRootObject"))
                          "function")
      then Rejects
             (Error
                "vat source bundle does not export buildRootObject function")
      else Fulfils (get (JObject vatNS) "buildRootObject")
  | Rejects e => Rejects e
  | NeverSettles => NeverSettles
  end.

(** The async function [makeBuildRootObject]: it returns a promise, rejected
    at once when the bundle check or [makeVatEndowments] throws, and
    otherwise following the promise of [importBundle]. *)
Definition makeBuildRootObject : Handler :=
  fun _ w =>
    if negb (String.eqb (typeof (vatSourceBundle c)) "object")
    then
      (Awaits
         (Rejects
            (Error
               "createVatDynamically() requires bundle, not a plain string")),
       w)
    else
      let getMeter := getMeter (meterRecord c) in
      let inescapableTransforms :=
        [fun src => transformMetering stuff src getMeter] in
      let inescapableGlobalLexicals := [("getMeter", getMeter)] in
      match invoke (fun h => makeVatEndowments stuff h (vatID c))
                   (CallMakeVatEndowments (vatID c)) w with
      | (Throw e, w1) => (Awaits (Rejects e), w1)
      | (Ret endowments, w1) =>
          let options :=
            {| filePrefix := vatID c;
               endowments := endowments;
               inescapableTransforms := inescapableTransforms;
               inescapableGlobalLexicals := inescapableGlobalLexicals |} in
          let loaded :=
            importBundle imp (history w1) (vatSourceBundle c) options in
          (Awaits (afterImport loaded),
           log (CallImportBundle (vatSourceBundle c) options loaded) w1)
      end.

Definition makeVatManager : Handler :=
  sync (fun buildRootObject =>
    let setup : Setup :=
      fun syscall state helpers _vatPowers =>
        makeLiveSlots imp syscall state buildRootObject
          (helpers_vatID helpers) (dynamicVatPowers stuff) in
    invoke (fun h => addVatManager stuff h (vatID c)
                       ("dynamicVat" ++ vatID c) setup (JObject [])
                       (meterRecord c))
           (CallAddVatManager (vatID c) ("dynamicVat" ++ vatID c) setup
              (JObject []) (meterRecord c)) ;;
    ret JUndefined).

Definition makeSuccessResponse : Handler :=
  sync (fun _ =>
    kernelRootObjSlot <-
      invoke (fun h => addExport stuff h (vatID c)
                         (makeVatRootObjectSlot imp))
             (CallAddExport (vatID c) (makeVatRootObjectSlot imp)) ;;
    ret (JObject
           [("body",
             JSON_stringify
               (JArray
                  [JString (vatID c);
                   JObject
                     [("rootObject",
                       JObject [("@qclass", JString "slot");
                                ("index", JNumber 0)])]]));
            ("slots", JArray [JString kernelRootObjSlot])])).

Definition makeErrorResponse : Handler :=
  sync (fun error =>
    ret (JObject
           [("body",
             JSON_stringify
               (JArray
                  [JString (vatID c);
                   JObject [("error", JString (toString error))]]));
            ("slots", JArray [])])).

Definition sendResponse : Handler :=
  sync (fun args =>
    vatAdminVatId <-
      invoke (fun h => vatNameToID stuff h "vatAdmin")
             (CallVatNameToID "vatAdmin") ;;
    let vatAdminRootObjectSlot := makeVatRootObjectSlot imp in
    invoke (fun h => queueToExport stuff h vatAdminVatId
                       vatAdminRootObjectSlot "newVatCallback" args
                       "logFailure")
           (CallQueueToExport vatAdminVatId vatAdminRootObjectSlot
              "newVatCallback" args "logFailure") ;;
    ret JUndefined).

(** [err => console.error(`error in createVatDynamically`, err)]. *)
Definition logError : Handler :=
  sync (fun err =>
    fun w =>
      (Ret JUndefined,
       log (CallConsoleError "error in createVatDynamically" err) w)).

(** The chain
    [Promise.resolve().then(makeBuildRootObject).then(makeVatManager)
       .then(makeSuccessResponse, makeErrorResponse).then(sendResponse)
       .catch(...)]. *)
Definition chain : list Reaction :=
  [ then_ makeBuildRootObject;
    then_ makeVatManager;
    then2 makeSuccessResponse makeErrorResponse;
    then_ sendResponse;
    catch_ logError ].

End Closures.

(** One [createVatDynamically] call in flight. *)
Record Instance : Type := mkInstance {
  closure : Closure;
  world : World;
  pipe : Pipe
}.

(** [createVatDynamically(vatSourceBundle)] up to its [return vatID]: the
    two allocations, [terminated = false], and the chain set up on the
    already fulfilled [Promise.resolve()], whose first job is queued.  The
    chain of the returned instance is [chain stuff imp] of its closure; its
    jobs run later, one per [Tick]. *)
Definition createVatDynamically (stuff : Stuff) (imp : Imports)
    (vatSourceBundle : Value) : Outcome (VatID * Instance) :=
  let w0 := {| history := []; terminated := false |} in
  match invoke (allocateUnusedVatID stuff) CallAllocateUnusedVatID w0 with
  | (Throw e, _) => Throw e
  | (Ret vatID, w1) =>
      let options :=
        {| refillEachCrank := false; refillIfExhausted := false |} in
      match invoke (fun h => makeGetMeter stuff h options)
                   (CallMakeGetMeter options) w1 with
      | (Throw e, _) => Throw e
      | (Ret meterRecord, w2) =>
          Ret (vatID,
               {| closure :=
                    {| vatSourceBundle := vatSourceBundle;
                       vatID := vatID;
                       meterRecord := meterRecord |};
                  world := {| history := history w2; terminated := false |};
                  pipe := Job 0 (Fulfilled JUndefined) |})
      end
  end.

(** [makeDynamicVatCreator(stuff)] returns [createVatDynamically]. *)
Definition makeDynamicVatCreator (stuff : Stuff) (imp : Imports)
  : Value -> Outcome (VatID * Instance) :=
  createVatDynamically stuff imp.

(* ================================================================== *)
(** ** Running a call *)
(* ================================================================== *)

Definition isAddVatManager (ev : Event) : bool :=
  match ev with CallAddVatManager _ _ _ _ _ _ => true | _ => false end.

Definition isImportBundle (ev : Event) : bool :=
  match ev with CallImportBundle _ _ _ => true | _ => false end.

Definition isAddExport (ev : Event) : bool :=
  match ev with CallAddExport _ _ _ => true | _ => false end.

Definition isQueueToExport (ev : Event) : bool :=
  match ev with CallQueueToExport _ _ _ _ _ _ => true | _ => false end.

Definition isMethod (m : string) (ev : Event) : bool :=
  match ev with
  | CallQueueToExport _ _ method _ _ _ => String.eqb method m
  | _ => false
  end.

Definition isNewVatCallback : Event -> bool := isMethod "newVatCallback".
Definition isVatTerminated : Event -> bool := isMethod "vatTerminated".

(** What can happen to a call in flight: the next promise job of its chain
    runs, or somebody invokes its [notifyTermination] (what the invocation
    returns or throws goes to that caller).  Only [addVatManager] is ever
    given that closure, so the second is possible only once [addVatManager]
    has been called.  Invocations happen between jobs: one made by
    [addVatManager] itself, while the job that registers the vat is still
    running, is not modelled. *)
Inductive Action : Type :=
| Tick
| Terminate (error : Value).

Definition notifierReachable (i : Instance) : bool :=
  existsb isAddVatManager (history (world i)).

Definition act (stuff : Stuff) (imp : Imports) (a : Action) (i : Instance)
  : Instance :=
  match a with
  | Tick =>
      let (p, w) := runJob (chain stuff imp (closure i)) (pipe i) (world i) in
      {| closure := closure i; world := w; pipe := p |}
  | Terminate error =>
      if notifierReachable i
      then {| closure := closure i;
              world := snd (notifyTermination stuff imp (closure i) error
                              (world i));
              pipe := pipe i |}
      else i
  end.

Definition run (stuff : Stuff) (imp : Imports) (schedule : list Action)
    (i : Instance) : Instance :=
  fold_left (fun i a => act stuff imp a i) schedule i.

Definition isTick (a : Action) : bool :=
  match a with Tick => true | Terminate _ => false end.

Definition ticks (schedule : list Action) : nat :=
  length (filter isTick schedule).

Definition newVatCallbacks (i : Instance) : list Event :=
  filter isNewVatCallback (history (world i)).

Definition vatTerminateds (i : Instance) : list Event :=
  filter isVatTerminated (history (world i)).

Definition exports (i : Instance) : list Event :=
  filter isAddExport (history (world i)).

(* ================================================================== *)
(** ** A concrete kernel for the scenarios *)
(* ================================================================== *)

Module Scenario.

(** A collaborator set in which nothing throws: the next vat is [v11], the
    administrator vat is [v2], the root export gets kernel slot [ko42]. *)
Definition stuff : Stuff :=
  {| allocateUnusedVatID := fun _ => Ret "v11";
     vatNameToID :=
       fun _ name =>
         if String.eqb name "vatAdmin" then Ret "v2"
         else Throw (Error "unknown vat name");
     makeVatEndowments := fun _ _ => Ret (JObject []);
     dynamicVatPowers := JObject [];
     transformMetering := fun src _ => Ret src;
     makeGetMeter :=
       fun _ _ => Ret {| getMeter := JFunction "getMeter" "" |};
     addVatManager := fun _ _ _ _ _ _ => Ret tt;
     addExport := fun _ _ _ => Ret "ko42";
     queueToExport := fun _ _ _ _ _ _ => Ret tt |}.

(** The same kernel with an export table that refuses the allocation. *)
Definition stuffExportFails : Stuff :=
  {| allocateUnusedVatID := allocateUnusedVatID stuff;
     vatNameToID := vatNameToID stuff;
     makeVatEndowments := makeVatEndowments stuff;
     dynamicVatPowers := dynamicVatPowers stuff;
     transformMetering := transformMetering stuff;
     makeGetMeter := makeGetMeter stuff;
     addVatManager := addVatManager stuff;
     addExport := fun _ _ _ => Throw (Error "unknown vatID");
     queueToExport := queueToExport stuff |}.

(** A toy loader: an object bundle is its own namespace, anything else that
    passes the bundle check is rejected. *)
Definition imports : Imports :=
  {| importBundle :=
       fun _ bundle _ =>
         match bundle with
         | JObject fields => Fulfils fields
         | _ => Rejects (JError "TypeError" "cannot load bundle")
         end;
     makeVatSlot :=
       fun type allocatedByVat id =>
         (if String.eqb type "object" then "o" else "p") ++
         (if allocatedByVat then "+" else "-") ++ decimal id;
     makeLiveSlots := fun _ _ _ _ _ => Ret (JObject []) |}.

Definition bundleA : Value :=
  JObject [("buildRootObject", JFunction "buildRootObject" "")].

Definition bundleB : Value :=
  JObject [("start", JFunction "start" "")].

Definition meter : MeterRecord := {| getMeter := JFunction "getMeter" "" |}.

Definition started (bundle : Value) : Instance :=
  {| closure :=
       {| vatSourceBundle := bundle; vatID := "v11"; meterRecord := meter |};
     world :=
       {| history :=
            [CallAllocateUnusedVatID (Ret "v11");
             CallMakeGetMeter
               {| refillEachCrank := false; refillIfExhausted := false |}
               (Ret meter)];
          terminated := false |};
     pipe := Job 0 (Fulfilled JUndefined) |}.

End Scenario.

(* ================================================================== *)
(** ** Spec-level vocabulary *)
(* ================================================================== *)

(** The argument object of a notification. *)
Definition capData (body : Value) (slots : list Value) : Value :=
  JObject [("body", body); ("slots", JArray slots)].

Definition validationError : Value :=
  Error "createVatDynamically() requires bundle, not a plain string".

(** How far a chain has come, counted in jobs. *)
Definition progress (p : Pipe) : nat :=
  match p with
  | Job 0 _ => 0
  | Job (S n) _ => n + 2
  | Adopting n _ => n + 1
  | Finished _ => 6
  end.

Definition unhandledRejection (p : Pipe) : Prop :=
  exists e, p = Finished (Rejected e).

(** Invoke [notifyTermination] once per element of [errors], in order,
    ignoring what each invocation returns or throws. *)
Definition notifyAll (stuff : Stuff) (imp : Imports) (c : Closure)
    (errors : list Value) (w : World) : World :=
  fold_left (fun w error => snd (notifyTermination stuff imp c error w))
            errors w.

(** The second element of the body of a [vatTerminated] message. *)
Definition terminationDescriptor (error : Value) : Value :=
  if truthy error
  then JObject [("@qclass", JString "error");
                ("name", get error "name");
                ("message", get error "message")]
  else JObject [("@qclass", JString "undefined")].

(** Shapes of [Pipe] that the five-link chain can reach. *)
Definition wellFormed (p : Pipe) : Prop :=
  match p with
  | Job 0 (Rejected _) => False
  | Job n _ => n <= 4
  | Adopting n _ => n = 0
  | Finished _ => True
  end.

(** The invariant of a call in flight after at most [k] jobs. *)
Definition Inv (k : nat) (i : Instance) : Prop :=
  progress (pipe i) <= k /\
  (progress (pipe i) <= 4 -> newVatCallbacks i = []) /\
  length (newVatCallbacks i) <= 1 /\
  ~ unhandledRejection (pipe i) /\
  wellFormed (pipe i).

(** The [vatTerminated] message about vat [v] caused by [error]. *)
Definition terminationMessage (imp : Imports) (v : VatID)
    (vatAdminVatId : VatID) (error : Value) (r : Outcome unit) : Event :=
  CallQueueToExport vatAdminVatId (makeVatRootObjectSlot imp) "vatTerminated"
    (capData (JSON_stringify (JArray [JString v; terminationDescriptor error]))
             [])
    "logFailure" r.

(** The [newVatCallback] message about vat [v] with the given result
    object and slot list. *)
Definition creationMessage (imp : Imports) (v : VatID)
    (vatAdminVatId : VatID) (result : Value) (slots : list Value)
    (r : Outcome unit) : Event :=
  CallQueueToExport vatAdminVatId (makeVatRootObjectSlot imp) "newVatCallback"
    (capData (JSON_stringify (JArray [JString v; result])) slots)
    "logFailure" r.

Definition successResult : Value :=
  JObject [("rootObject",
            JObject [("@qclass", JString "slot"); ("index", JNumber 0)])].

Definition failureResult (text : string) : Value :=
  JObject [("error", JString text)].

(** The [terminated] flag guards the [vatTerminated] message. *)
Definition TermInv (imp : Imports) (i : Instance) : Prop :=
  (terminated (world i) = false -> vatTerminateds i = []) /\
  (vatTerminateds i = [] \/
   exists a error r,
     vatTerminateds i =
       [terminationMessage imp (vatID (closure i)) a error r]).

(** The invariant of a call in flight whose loader settles and whose
    notification step does not throw: after [k] jobs the chain has made
    [k] steps, and from the fifth on the one notification is there. *)
Definition Live (imp : Imports) (k : nat) (i : Instance) : Prop :=
  progress (pipe i) = Nat.min k 6 /\
  wellFormed (pipe i) /\
  (forall n q, pipe i = Adopting n q -> q <> NeverSettles) /\
  (forall s, pipe i = Job 3 s ->
     exists result slots,
       s = Fulfilled
             (capData
                (JSON_stringify (JArray [JString (vatID (closure i)); result]))
                slots)) /\
  (progress (pipe i) <= 4 -> newVatCallbacks i = []) /\
  (5 <= progress (pipe i) ->
   exists a result slots,
     newVatCallbacks i
       = [creationMessage imp (vatID (closure i)) a result slots (Ret tt)]).

(** Where the success path stands after [n] jobs: the vat [vatID c] loads
    to the constructor [bro], its root export gets kernel slot [k], and the
    administrator vat is [a]. *)
Definition SuccessPhase (imp : Imports) (c : Closure) (bro : Value)
    (a : VatID) (k : KernelSlot) (n : nat) (i : Instance) : Prop :=
  closure i = c /\
  match n with
  | 0 =>
      pipe i = Job 0 (Fulfilled JUndefined) /\
      exports i = [] /\ newVatCallbacks i = []
  | 1 =>
      pipe i = Adopting 0 (Fulfils bro) /\
      exports i = [] /\ newVatCallbacks i = []
  | 2 =>
      pipe i = Job 1 (Fulfilled bro) /\
      exports i = [] /\ newVatCallbacks i = []
  | 3 =>
      pipe i = Job 2 (Fulfilled JUndefined) /\
      exports i = [] /\ newVatCallbacks i = []
  | 4 =>
      pipe i =
        Job 3
          (Fulfilled
             (capData
                (JSON_stringify (JArray [JString (vatID c); successResult]))
                [JString k])) /\
      exports i = [CallAddExport (vatID c) (makeVatRootObjectSlot imp) (Ret k)]
      /\ newVatCallbacks i = []
  | _ =>
      (exists s, pipe i = Job 4 s \/ pipe i = Finished s) /\
      exports i = [CallAddExport (vatID c) (makeVatRootObjectSlot imp) (Ret k)]
      /\
      exists r,
        newVatCallbacks i
          = [creationMessage imp (vatID c) a successResult [JString k] r]
  end.

(* ================================================================== *)
(** ** Faulty kernels and call shapes *)
(* ================================================================== *)

Module Faults.



(** [Scenario.stuff] without an administrator vat. *)
Definition stuffAdminUnknown : Stuff :=
  {| allocateUnusedVatID := allocateUnusedVatID Scenario.stuff;
     vatNameToID := fun _ _ => Throw (Error "unknown vat name");
     makeVatEndowments := makeVatEndowments Scenario.stuff;
     dynamicVatPowers := dynamicVatPowers Scenario.stuff;
     transformMetering := transformMetering Scenario.stuff;
     makeGetMeter := makeGetMeter Scenario.stuff;
     addVatManager := addVatManager Scenario.stuff;
     addExport := addExport Scenario.stuff;
     queueToExport := queueToExport Scenario.stuff |}.

(** [Scenario.stuff] with a meter factory that throws. *)
Definition stuffMeterFails : Stuff :=
  {| allocateUnusedVatID := allocateUnusedVatID Scenario.stuff;
     vatNameToID := vatNameToID Scenario.stuff;
     makeVatEndowments := makeVatEndowments Scenario.stuff;
     dynamicVatPowers := dynamicVatPowers Scenario.stuff;
     transformMetering := transformMetering Scenario.stuff;
     makeGetMeter := fun _ _ => Throw (Error "metering not available");
     addVatManager := addVatManager Scenario.stuff;
     addExport := addExport Scenario.stuff;
     queueToExport := queueToExport Scenario.stuff |}.

(** A loader whose promise never settles. *)
Definition importsHang : Imports :=
  {| importBundle := fun _ _ _ => NeverSettles;
     makeVatSlot := makeVatSlot Scenario.imports;
     makeLiveSlots := makeLiveSlots Scenario.imports |}.

End Faults.

Definition isMakeVatEndowments (ev : Event) : bool :=
  match ev with CallMakeVatEndowments _ _ => true | _ => false end.

(** An [importBundle] call that fulfilled with a module exporting a
    [buildRootObject] function. *)
Definition loadedOk (ev : Event) : bool :=
  match ev with
  | CallImportBundle _ _ (Fulfils vatNS) =>
      String.eqb (typeof (get (JObject vatNS) "buildRootObject")) "function"
  | _ => false
  end.

(** An [addVatManager] call that returned. *)
Definition registeredOk (ev : Event) : bool :=
  match ev with
  | CallAddVatManager _ _ _ _ _ (Ret _) => true
  | _ => false
  end.

(** What every collaborator call of the instance with closure [c] looks
    like. *)
Definition CallShape (stuff : Stuff) (imp : Imports) (c : Closure)
    (ev : Event) : Prop :=
  match ev with
  | CallVatNameToID name _ => name = "vatAdmin"
  | CallMakeVatEndowments v _ => v = vatID c
  | CallImportBundle bundle options _ =>
      bundle = vatSourceBundle c /\
      filePrefix options = vatID c /\
      inescapableGlobalLexicals options
        = [("getMeter", getMeter (meterRecord c))] /\
      exists transform,
        inescapableTransforms options = [transform] /\
        forall src,
          transform src = transformMetering stuff src (getMeter (meterRecord c))
  | CallAddVatManager v name setup options m _ =>
      v = vatID c /\
      name = "dynamicVat" ++ vatID c /\
      options = JObject [] /\
      m = meterRecord c /\
      exists buildRootObject,
        typeof buildRootObject = "function" /\
        forall syscall state helpers vatPowers,
          setup syscall state helpers vatPowers
            = makeLiveSlots imp syscall state buildRootObject
                (helpers_vatID helpers) (dynamicVatPowers stuff)
  | CallAddExport v slot _ =>
      v = vatID c /\ slot = makeVatRootObjectSlot imp
  | CallQueueToExport _ slot method _ policy _ =>
      slot = makeVatRootObjectSlot imp /\
      policy = "logFailure" /\
      (method = "newVatCallback" \/ method = "vatTerminated")
  | CallConsoleError msg _ => msg = "error in createVatDynamically"
  | CallAllocateUnusedVatID _ => True
  | CallMakeGetMeter _ _ => True
  end.

(** Every call so far has its shape, and a constructor on its way to
    [makeVatManager] is a function. *)
Definition ShapeInv (stuff : Stuff) (imp : Imports) (i : Instance) : Prop :=
  Forall (CallShape stuff imp (closure i)) (history (world i)) /\
  (forall x,
     pipe i = Adopting 0 (Fulfils x) \/ pipe i = Job 1 (Fulfilled x) ->
     typeof x = "function").

(** How often the stages have run, and in which order. *)
Definition CountInv (i : Instance) : Prop :=
  let h := history (world i) in
  wellFormed (pipe i) /\
  length (filter isMakeVatEndowments h) <= 1 /\
  length (filter isImportBundle h) <= 1 /\
  length (filter isAddVatManager h) <= 1 /\
  length (filter isAddExport h) <= 1 /\
  (progress (pipe i) = 0 ->
   filter isMakeVatEndowments h = [] /\ filter isImportBundle h = []) /\
  (progress (pipe i) <= 2 -> filter isAddVatManager h = []) /\
  (progress (pipe i) <= 3 -> filter isAddExport h = []) /\
  (forall x,
     pipe i = Adopting 0 (Fulfils x) \/ pipe i = Job 1 (Fulfilled x) ->
     existsb loadedOk h = true) /\
  (forall x, pipe i = Job 2 (Fulfilled x) -> existsb registeredOk h = true) /\
  (filter isAddVatManager h <> [] -> existsb loadedOk h = true) /\
  (filter isAddExport h <> [] -> existsb registeredOk h = true).


(** On the success path the vat is registered from the third job on. *)
Definition RegisteredPhase (c : Closure) (bro : Value) (n : nat)
    (i : Instance) : Prop :=
  closure i = c /\
  match n with
  | 0 => pipe i = Job 0 (Fulfilled JUndefined)
  | 1 => pipe i = Adopting 0 (Fulfils bro)
  | 2 => pipe i = Job 1 (Fulfilled bro)
  | _ => notifierReachable i = true
  end.


(** The [console.error] call of the [.catch] handler for the error [e]. *)
Definition loggedError (e : Value) : Event :=
  CallConsoleError "error in createVatDynamically" e.

(* ================================================================== *)
(** ** Basic facts of the job machine *)
(* ================================================================== *)

Ltac unfold_handlers :=
  unfold makeBuildRootObject, makeVatManager, makeSuccessResponse,
    makeErrorResponse, sendResponse, logError, notifyTermination, sync,
    bind, ret, invoke, setTerminated, log in *.

Ltac unfold_machine :=
  unfold act, runJob, chain, react, settle, then_, then2, catch_ in *;
  cbn [nth_error onFulfilled onRejected] in *.

Ltac break_match :=
  repeat match goal with
         | |- context [match ?x with _ => _ end] =>
             lazymatch x with
             | context [match _ with _ => _ end] => fail
             | _ => destruct x eqn:?; cbn [fst snd] in *
             end
         end.

Ltac filters :=
  unfold newVatCallbacks, vatTerminateds, exports in *;
  cbn [world history terminated pipe closure fst snd] in *;
  repeat rewrite filter_app;
  cbn [filter isNewVatCallback isVatTerminated isAddExport isQueueToExport
       isImportBundle isAddVatManager isMethod String.eqb Ascii.eqb
       Bool.eqb] in *;
  repeat rewrite app_nil_r.

Section Machine.

Variable stuff : Stuff.
Variable imp : Imports.

Lemma act_closure (a : Action) (i : Instance) :
  closure (act stuff imp a i) = closure i.
Proof.
  destruct a; unfold act.
  - destruct (runJob _ _ _); reflexivity.
  - destruct (notifierReachable i); reflexivity.
Qed.

Lemma run_closure (schedule : list Action) (i : Instance) :
  closure (run stuff imp schedule i) = closure i.
Proof.
  revert i; induction schedule as [|a rest IH]; intro i; [reflexivity|].
  cbn. unfold run in IH. rewrite IH. apply act_closure.
Qed.

Lemma run_cons (a : Action) (rest : list Action) (i : Instance) :
  run stuff imp (a :: rest) i = run stuff imp rest (act stuff imp a i).
Proof. reflexivity. Qed.

Lemma ticks_cons (a : Action) (rest : list Action) :
  ticks (a :: rest) = (if isTick a then 1 else 0) + ticks rest.
Proof. unfold ticks. cbn. destruct (isTick a); reflexivity. Qed.

Lemma terminate_pipe (e : Value) (i : Instance) :
  pipe (act stuff imp (Terminate e) i) = pipe i.
Proof. unfold act. destruct (notifierReachable i); reflexivity. Qed.

Lemma terminate_newVatCallbacks (e : Value) (i : Instance) :
  newVatCallbacks (act stuff imp (Terminate e) i) = newVatCallbacks i.
Proof.
  unfold act. destruct (notifierReachable i); [|reflexivity].
  unfold_handlers. destruct i as [c [h t] p]. cbn.
  destruct t; cbn; [reflexivity|].
  break_match; filters; reflexivity.
Qed.

Lemma terminate_exports (e : Value) (i : Instance) :
  exports (act stuff imp (Terminate e) i) = exports i.
Proof.
  unfold act. destruct (notifierReachable i); [|reflexivity].
  unfold_handlers. destruct i as [c [h t] p]. cbn.
  destruct t; cbn; [reflexivity|].
  break_match; filters; reflexivity.
Qed.

Lemma terminate_unreachable (e : Value) (i : Instance) :
  notifierReachable i = false -> act stuff imp (Terminate e) i = i.
Proof. intro H. unfold act. rewrite H. reflexivity. Qed.

Lemma Inv_terminate (k : nat) (e : Value) (i : Instance) :
  Inv k i -> Inv k (act stuff imp (Terminate e) i).
Proof.
  unfold Inv. rewrite terminate_pipe, terminate_newVatCallbacks. tauto.
Qed.

End Machine.

Section Invariants.

Variable stuff : Stuff.
Variable imp : Imports.

Lemma Inv_tick (k : nat) (i : Instance) :
  Inv k i -> Inv (S k) (act stuff imp Tick i).
Proof.
  destruct i as [c [h t] p]. unfold Inv, unhandledRejection.
  cbn [pipe world].
  intros (Hk & Hnone & Hone & Hrej & Hwf).
  destruct p as [n s | n q | s].
  - cbn in Hwf.
    destruct n as [|[|[|[|[|n]]]]]; [| | | | | lia]; destruct s;
      unfold_machine; unfold_handlers; cbn in *;
      break_match; cbn in *; filters;
      repeat split; try lia; try tauto; try (intros [? ?]; discriminate);
      try (rewrite Hnone by lia; cbn; lia);
      try (intros; apply Hnone; lia); try (intros; lia).
  - cbn in Hwf. subst n. destruct q; unfold_machine; cbn in *;
      repeat split; try lia; try tauto; try (intros [? ?]; discriminate);
      try (intros; apply Hnone; lia).
  - unfold_machine; cbn in *.
    repeat split; try lia; try tauto.
Qed.

Lemma Inv_run (schedule : list Action) (k : nat) (i : Instance) :
  Inv k i -> Inv (k + ticks schedule) (run stuff imp schedule i).
Proof.
  revert k i. induction schedule as [|a rest IH]; intros k i Hi.
  - cbn. rewrite Nat.add_0_r. exact Hi.
  - rewrite run_cons, ticks_cons. destruct a; cbn [isTick].
    + replace (k + (1 + ticks rest)) with (S k + ticks rest) by lia.
      apply IH, Inv_tick, Hi.
    + cbn. apply IH, Inv_terminate, Hi.
Qed.

(** What [createVatDynamically] leaves behind when it returns. *)
Lemma created (bundle : Value) (v : VatID) (inst : Instance) :
  createVatDynamically stuff imp bundle = Ret (v, inst) ->
  exists m,
    allocateUnusedVatID stuff [] = Ret v /\
    makeGetMeter stuff [CallAllocateUnusedVatID (Ret v)]
      {| refillEachCrank := false; refillIfExhausted := false |} = Ret m /\
    inst =
      {| closure :=
           {| vatSourceBundle := bundle; vatID := v; meterRecord := m |};
         world :=
           {| history :=
                [CallAllocateUnusedVatID (Ret v);
                 CallMakeGetMeter
                   {| refillEachCrank := false; refillIfExhausted := false |}
                   (Ret m)];
              terminated := false |};
         pipe := Job 0 (Fulfilled JUndefined) |}.
Proof.
  unfold createVatDynamically, invoke, log. cbn.
  destruct (allocateUnusedVatID stuff []) as [v0|e] eqn:Ha; [|discriminate].
  destruct (makeGetMeter stuff _ _) as [m|e] eqn:Hm; [|discriminate].
  intro H. injection H as Hv Hi. subst v0. exists m.
  repeat split; [exact Hm | symmetry; exact Hi].
Qed.

Lemma created_Inv (bundle : Value) (v : VatID) (inst : Instance) :
  createVatDynamically stuff imp bundle = Ret (v, inst) -> Inv 0 inst.
Proof.
  intro H. destruct (created _ _ _ H) as (m & _ & _ & ->).
  unfold Inv, unhandledRejection. cbn.
  repeat split; try lia. intros [e He]; discriminate.
Qed.

Lemma TermInv_terminate (e : Value) (i : Instance) :
  TermInv imp i -> TermInv imp (act stuff imp (Terminate e) i).
Proof.
  unfold TermInv, act. destruct (notifierReachable i); [|tauto].
  destruct i as [c [h t] p]. unfold_handlers. cbn.
  intros [Hf Hle]. destruct t; cbn; [split; assumption|].
  break_match; filters; rewrite (Hf eq_refl); cbn;
    (split; [discriminate|]);
    solve [ left; reflexivity
          | right; exists a, e; eexists;
            unfold terminationMessage, capData, terminationDescriptor;
            match goal with H : truthy _ = _ |- _ => rewrite H end;
            reflexivity ].
Qed.

Lemma TermInv_tick (i : Instance) :
  TermInv imp i -> TermInv imp (act stuff imp Tick i).
Proof.
  destruct i as [c [h t] p]. unfold TermInv. cbn [world closure].
  intros [Hf Hle].
  destruct p as [n s | n q | s].
  - destruct n as [|[|[|[|[|n]]]]]; destruct s;
      unfold_machine; unfold_handlers; cbn in *;
      break_match; cbn in *; filters; try (split; assumption);
      match goal with
      | H : nth_error [] ?n = Some _ |- _ => destruct n; discriminate H
      end.
  - destruct q; unfold_machine; cbn in *; break_match; cbn;
      split; assumption.
  - unfold_machine; cbn in *. split; assumption.
Qed.

Lemma TermInv_run (schedule : list Action) (i : Instance) :
  TermInv imp i -> TermInv imp (run stuff imp schedule i).
Proof.
  revert i. induction schedule as [|a rest IH]; intros i Hi; [exact Hi|].
  rewrite run_cons. apply IH. destruct a.
  - apply TermInv_tick, Hi.
  - apply TermInv_terminate, Hi.
Qed.

End Invariants.

(* ================================================================== *)
(** ** The entry point returns before any stage runs *)
(* ================================================================== *)

(** C2: for every bundle (a plain string included), once the vat id and the
    meter are allocated, [createVatDynamically] returns that vat id at once,
    and when it returns only the first job of the chain is queued: nothing
    has been loaded, no vat manager registered, no export slot allocated and
    no message enqueued. *)
Theorem C2_returns_vatID_before_any_stage
    (stuff : Stuff) (imp : Imports) (bundle : Value)
    (v : VatID) (m : MeterRecord) :
  allocateUnusedVatID stuff [] = Ret v ->
  makeGetMeter stuff [CallAllocateUnusedVatID (Ret v)]
    {| refillEachCrank := false; refillIfExhausted := false |} = Ret m ->
  exists inst,
    createVatDynamically stuff imp bundle = Ret (v, inst) /\
    pipe inst = Job 0 (Fulfilled JUndefined) /\
    filter isImportBundle (history (world inst)) = [] /\
    filter isAddVatManager (history (world inst)) = [] /\
    exports inst = [] /\
    filter isQueueToExport (history (world inst)) = [].
Proof.
  intros Ha Hm.
  unfold createVatDynamically, invoke, log. cbn.
  rewrite Ha. cbn. rewrite Hm. cbn.
  eexists. split; [reflexivity|]. cbn. repeat split.
Qed.

Lemma C2_witness :
  allocateUnusedVatID Scenario.stuff [] = Ret "v11" /\
  makeGetMeter Scenario.stuff [CallAllocateUnusedVatID (Ret "v11")]
    {| refillEachCrank := false; refillIfExhausted := false |}
    = Ret Scenario.meter /\
  exists inst,
    createVatDynamically Scenario.stuff Scenario.imports
      (JString "not-an-object") = Ret ("v11", inst) /\
    pipe inst = Job 0 (Fulfilled JUndefined) /\
    filter isImportBundle (history (world inst)) = [] /\
    filter isAddVatManager (history (world inst)) = [] /\
    exports inst = [] /\
    filter isQueueToExport (history (world inst)) = [].
Proof.
  split; [reflexivity|]. split; [reflexivity|].
  apply (C2_returns_vatID_before_any_stage Scenario.stuff Scenario.imports
           (JString "not-an-object") "v11" Scenario.meter);
    reflexivity.
Defined.

(** C8: every creation request allocates the meter record together with
    the vat id, before the bundle is looked at.  Whatever the bundle, once
    [allocateUnusedVatID] has returned, [makeGetMeter] is called next, with
    [refillEachCrank] and [refillIfExhausted] both false: what it returns is
    the meter record of the new vat and these two calls are the whole history
    when the request returns, with only the first job of the chain queued;
    what it throws is thrown by the request.  Conversely a request that
    returned has made exactly these two calls. *)
Theorem C8_meter_allocated_fail_stop
    (stuff : Stuff) (imp : Imports) (bundle : Value) (v : VatID) :
  allocateUnusedVatID stuff [] = Ret v ->
  (forall m,
     makeGetMeter stuff [CallAllocateUnusedVatID (Ret v)]
       {| refillEachCrank := false; refillIfExhausted := false |} = Ret m ->
     createVatDynamically stuff imp bundle
       = Ret (v,
              {| closure :=
                   {| vatSourceBundle := bundle;
                      vatID := v;
                      meterRecord := m |};
                 world :=
                   {| history :=
                        [CallAllocateUnusedVatID (Ret v);
                         CallMakeGetMeter
                           {| refillEachCrank := false;
                              refillIfExhausted := false |} (Ret m)];
                      terminated := false |};
                 pipe := Job 0 (Fulfilled JUndefined) |})) /\
  (forall e,
     makeGetMeter stuff [CallAllocateUnusedVatID (Ret v)]
       {| refillEachCrank := false; refillIfExhausted := false |} = Throw e ->
     createVatDynamically stuff imp bundle = Throw e) /\
  (forall v' inst,
     createVatDynamically stuff imp bundle = Ret (v', inst) ->
     v' = v /\
     makeGetMeter stuff [CallAllocateUnusedVatID (Ret v)]
       {| refillEachCrank := false; refillIfExhausted := false |}
       = Ret (meterRecord (closure inst)) /\
     history (world inst) =
       [CallAllocateUnusedVatID (Ret v);
        CallMakeGetMeter
          {| refillEachCrank := false; refillIfExhausted := false |}
          (Ret (meterRecord (closure inst)))] /\
     vatID (closure inst) = v /\
     pipe inst = Job 0 (Fulfilled JUndefined)).
Proof.
  intro Ha. repeat apply conj.
  - intros m Hm. unfold createVatDynamically, invoke, log. cbn.
    rewrite Ha. cbn. rewrite Hm. reflexivity.
  - intros e Hm. unfold createVatDynamically, invoke, log. cbn.
    rewrite Ha. cbn. rewrite Hm. reflexivity.
  - intros v' inst H.
    destruct (created _ _ _ _ _ H) as (m & Ha' & Hm & ->).
    rewrite Ha in Ha'. injection Ha' as <-. cbn.
    repeat split. exact Hm.
Qed.

Lemma C8_witness :
  allocateUnusedVatID Scenario.stuff [] = Ret "v11" /\
  makeGetMeter Scenario.stuff [CallAllocateUnusedVatID (Ret "v11")]
    {| refillEachCrank := false; refillIfExhausted := false |}
    = Ret Scenario.meter /\
  createVatDynamically Scenario.stuff Scenario.imports
    (JString "not-an-object")
    = Ret ("v11", Scenario.started (JString "not-an-object")).
Proof.
  split; [reflexivity|]. split; [reflexivity|].
  destruct (C8_meter_allocated_fail_stop Scenario.stuff Scenario.imports
              (JString "not-an-object") "v11" eq_refl) as (Hret & _).
  exact (Hret Scenario.meter eq_refl).
Defined.

(** The notification is sent by the fifth job of the chain at the
    earliest. *)
Lemma notification_needs_five_jobs
    (stuff : Stuff) (imp : Imports) (bundle : Value)
    (v : VatID) (inst : Instance) (schedule : list Action) :
  createVatDynamically stuff imp bundle = Ret (v, inst) ->
  newVatCallbacks (run stuff imp schedule inst) <> [] ->
  5 <= ticks schedule.
Proof.
  intros H Hsent.
  pose proof (Inv_run stuff imp schedule 0 inst (created_Inv _ _ _ _ _ H))
    as (Hk & Hnone & _).
  cbn in Hk.
  destruct (le_lt_dec (progress (pipe (run stuff imp schedule inst))) 4)
    as [Hle|Hgt]; [|lia].
  contradiction (Hsent (Hnone Hle)).
Qed.

(** C5: the notification is not enqueued in the job that calls
    [createVatDynamically]: nothing is enqueued when the call returns, and
    whenever the notification has been enqueued at least one later job has
    run. *)
Theorem C5_notification_deferred
    (stuff : Stuff) (imp : Imports) (bundle : Value)
    (v : VatID) (inst : Instance) :
  createVatDynamically stuff imp bundle = Ret (v, inst) ->
  filter isQueueToExport (history (world inst)) = [] /\
  forall schedule,
    newVatCallbacks (run stuff imp schedule inst) <> [] ->
    1 <= ticks schedule.
Proof.
  intro H. split.
  - destruct (created _ _ _ _ _ H) as (m & _ & _ & ->). reflexivity.
  - intros schedule Hsent.
    pose proof (notification_needs_five_jobs _ _ _ _ _ schedule H Hsent). lia.
Qed.

Lemma C5_witness :
  createVatDynamically Scenario.stuff Scenario.imports Scenario.bundleA
    = Ret ("v11", Scenario.started Scenario.bundleA) /\
  filter isQueueToExport (history (world (Scenario.started Scenario.bundleA)))
    = [] /\
  newVatCallbacks
    (run Scenario.stuff Scenario.imports [Tick; Tick; Tick; Tick; Tick]
       (Scenario.started Scenario.bundleA)) <> [] /\
  1 <= ticks [Tick; Tick; Tick; Tick; Tick].
Proof.
  split; [reflexivity|].
  destruct (C5_notification_deferred Scenario.stuff Scenario.imports
              Scenario.bundleA "v11"
              (Scenario.started Scenario.bundleA) eq_refl)
    as [Hnone Hlater].
  split; [exact Hnone|].
  assert (Hsent :
    newVatCallbacks
      (run Scenario.stuff Scenario.imports [Tick; Tick; Tick; Tick; Tick]
         (Scenario.started Scenario.bundleA)) <> []).
  { vm_compute. discriminate. }
  split; [exact Hsent|].
  exact (Hlater [Tick; Tick; Tick; Tick; Tick] Hsent).
Defined.

(* ================================================================== *)
(** ** The bundle check *)
(* ================================================================== *)

(** C10: the bundle check of [makeBuildRootObject] rejects exactly the
    values whose [typeof] is not ["object"].  Such a value (a string, a
    number, a function, [undefined]) is rejected with the
    "requires bundle, not a plain string" error and nothing is called; a
    value whose [typeof] is ["object"], [null] included, passes the check:
    [makeVatEndowments] is called and, when it returns, [importBundle] is
    called on the bundle and decides the outcome. *)
Theorem C10_bundle_check_is_typeof_object
    (stuff : Stuff) (imp : Imports) (c : Closure) (x : Value) (w : World) :
  (typeof (vatSourceBundle c) <> "object" ->
   makeBuildRootObject stuff imp c x w
     = (Awaits (Rejects validationError), w)) /\
  (typeof (vatSourceBundle c) = "object" ->
   forall en,
     makeVatEndowments stuff (history w) (vatID c) = Ret en ->
     exists options,
       let loaded :=
         importBundle imp
           (history w ++ [CallMakeVatEndowments (vatID c) (Ret en)])%list
           (vatSourceBundle c) options in
       fst (makeBuildRootObject stuff imp c x w)
         = Awaits (afterImport loaded) /\
       history (snd (makeBuildRootObject stuff imp c x w))
         = (history w ++
            [CallMakeVatEndowments (vatID c) (Ret en);
             CallImportBundle (vatSourceBundle c) options loaded])%list) /\
  (typeof (vatSourceBundle c) = "object" ->
   exists r rest,
     history (snd (makeBuildRootObject stuff imp c x w))
       = (history w ++ CallMakeVatEndowments (vatID c) r :: rest)%list) /\
  typeof JNull = "object" /\
  typeof JUndefined <> "object" /\
  (forall s, typeof (JString s) <> "object") /\
  (forall n, typeof (JNumber n) <> "object") /\
  (forall b, typeof (JBool b) <> "object") /\
  (forall name src, typeof (JFunction name src) <> "object").
Proof.
  split; [|split; [|split]].
  - intro Hty. unfold makeBuildRootObject.
    destruct (String.eqb_spec (typeof (vatSourceBundle c)) "object")
      as [Heq|Hne]; [contradiction|reflexivity].
  - intros Hty en Hen. unfold makeBuildRootObject, invoke, log.
    rewrite Hty. cbn. rewrite Hen. cbn.
    eexists. split; [reflexivity|].
    rewrite <- app_assoc. reflexivity.
  - intro Hty. unfold makeBuildRootObject, invoke, log.
    rewrite Hty. cbn.
    destruct (makeVatEndowments stuff (history w) (vatID c)) as [en|e];
      cbn; do 2 eexists; [rewrite <- app_assoc|]; reflexivity.
  - repeat split; try (intros; cbn; discriminate).
Qed.

Lemma C10_witness :
  typeof JNull = "object" /\
  makeVatEndowments Scenario.stuff [] "v11" = Ret (JObject []) /\
  typeof (JNumber 7) <> "object" /\
  makeBuildRootObject Scenario.stuff Scenario.imports
    {| vatSourceBundle := JNumber 7; vatID := "v11";
       meterRecord := Scenario.meter |}
    JUndefined {| history := []; terminated := false |}
    = (Awaits (Rejects validationError),
       {| history := []; terminated := false |}) /\
  exists options,
    fst (makeBuildRootObject Scenario.stuff Scenario.imports
           {| vatSourceBundle := JNull; vatID := "v11";
              meterRecord := Scenario.meter |}
           JUndefined {| history := []; terminated := false |})
      = Awaits
          (afterImport
             (importBundle Scenario.imports
                [CallMakeVatEndowments "v11" (Ret (JObject []))]
                JNull options)).
Proof.
  split; [reflexivity|]. split; [reflexivity|].
  split; [discriminate|]. split.
  - apply (C10_bundle_check_is_typeof_object Scenario.stuff Scenario.imports
             {| vatSourceBundle := JNumber 7; vatID := "v11";
                meterRecord := Scenario.meter |}
             JUndefined {| history := []; terminated := false |}).
    discriminate.
  - destruct (C10_bundle_check_is_typeof_object Scenario.stuff
                Scenario.imports
                {| vatSourceBundle := JNull; vatID := "v11";
                   meterRecord := Scenario.meter |}
                JUndefined {| history := []; terminated := false |})
      as (_ & Hpass & _).
    destruct (Hpass eq_refl (JObject []) eq_refl) as (options & Hfst & _).
    exists options. exact Hfst.
Defined.

(* ================================================================== *)
(** ** The termination notifier *)
(* ================================================================== *)

Lemma notifyTermination_terminated
    (stuff : Stuff) (imp : Imports) (c : Closure) (error : Value) (w : World) :
  terminated (snd (notifyTermination stuff imp c error w)) = true.
Proof.
  unfold_handlers. destruct w as [h t]. cbn.
  destruct t eqn:Ht; cbn; [reflexivity|].
  break_match; reflexivity.
Qed.

Lemma notifyAll_terminated
    (stuff : Stuff) (imp : Imports) (c : Closure)
    (errors : list Value) (w : World) :
  terminated w = true -> notifyAll stuff imp c errors w = w.
Proof.
  revert w. induction errors as [|e rest IH]; intros w Ht; [reflexivity|].
  unfold notifyAll in *. cbn [fold_left].
  replace (snd (notifyTermination stuff imp c e w)) with w.
  - apply IH, Ht.
  - unfold notifyTermination. rewrite Ht. reflexivity.
Qed.

(** C4: [notifyTermination] is idempotent.  Once [terminated] is set an
    invocation does nothing, and every invocation sets it, so of any number
    of invocations only the first can enqueue; a call in flight therefore
    carries at most one [vatTerminated] message.  The message goes to the
    root object slot of the vat named [vatAdmin]; its body is the vat id
    followed by the error descriptor (name and message of the error) or by
    the [undefined] marker; its slot list is empty. *)
Theorem C4_termination_notifier_idempotent (stuff : Stuff) (imp : Imports) :
  (forall c error w,
     terminated w = true ->
     notifyTermination stuff imp c error w = (Ret JUndefined, w)) /\
  (forall c error w,
     terminated (snd (notifyTermination stuff imp c error w)) = true) /\
  (forall c error rest w,
     notifyAll stuff imp c (error :: rest) w
       = snd (notifyTermination stuff imp c error w)) /\
  (forall c error w a,
     terminated w = false ->
     vatNameToID stuff (history w) "vatAdmin" = Ret a ->
     exists r,
       history (snd (notifyTermination stuff imp c error w))
         = (history w ++
            [CallVatNameToID "vatAdmin" (Ret a);
             CallQueueToExport a (makeVatRootObjectSlot imp) "vatTerminated"
               (JObject
                  [("body",
                    JSON_stringify
                      (JArray [JString (vatID c);
                               terminationDescriptor error]));
                   ("slots", JArray [])])
               "logFailure" r])%list) /\
  (forall name message,
     terminationDescriptor (JError name message)
       = JObject [("@qclass", JString "error");
                  ("name", JString name);
                  ("message", JString message)]) /\
  terminationDescriptor JUndefined = JObject [("@qclass", JString "undefined")] /\
  (forall bundle v inst schedule,
     createVatDynamically stuff imp bundle = Ret (v, inst) ->
     vatTerminateds (run stuff imp schedule inst) = [] \/
     exists a error r,
       vatTerminateds (run stuff imp schedule inst)
         = [terminationMessage imp v a error r]).
Proof.
  repeat apply conj.
  - intros c error w Ht. unfold notifyTermination. rewrite Ht. reflexivity.
  - intros. apply notifyTermination_terminated.
  - intros c error rest w. cbn.
    apply notifyAll_terminated, notifyTermination_terminated.
  - intros c error w a Ht Ha. destruct w as [h t]. cbn in Ht, Ha. subst t.
    unfold_handlers. cbn. rewrite Ha. cbn.
    unfold terminationDescriptor.
    break_match; eexists; cbn; rewrite <- app_assoc; reflexivity.
  - reflexivity.
  - reflexivity.
  - intros bundle v inst schedule H.
    assert (Hinit : TermInv imp inst).
    { destruct (created _ _ _ _ _ H) as (m & _ & _ & ->).
      split; [reflexivity | left; reflexivity]. }
    pose proof (TermInv_run stuff imp schedule inst Hinit) as [_ Hshape].
    rewrite run_closure in Hshape.
    destruct (created _ _ _ _ _ H) as (m & _ & _ & ->). exact Hshape.
Qed.

Lemma C4_witness :
  createVatDynamically Scenario.stuff Scenario.imports Scenario.bundleA
    = Ret ("v11", Scenario.started Scenario.bundleA) /\
  vatTerminateds
    (run Scenario.stuff Scenario.imports
       [Tick; Tick; Tick; Terminate (JError "Error" "boom");
        Terminate (JError "Error" "boom"); Terminate JUndefined]
       (Scenario.started Scenario.bundleA))
    = [terminationMessage Scenario.imports "v11" "v2" (JError "Error" "boom")
         (Ret tt)] /\
  (vatTerminateds
     (run Scenario.stuff Scenario.imports
        [Tick; Tick; Tick; Terminate (JError "Error" "boom");
         Terminate (JError "Error" "boom"); Terminate JUndefined]
        (Scenario.started Scenario.bundleA)) = [] \/
   exists a error r,
     vatTerminateds
       (run Scenario.stuff Scenario.imports
          [Tick; Tick; Tick; Terminate (JError "Error" "boom");
           Terminate (JError "Error" "boom"); Terminate JUndefined]
          (Scenario.started Scenario.bundleA))
       = [terminationMessage Scenario.imports "v11" a error r]).
Proof.
  split; [reflexivity|]. split; [reflexivity|].
  destruct (C4_termination_notifier_idempotent Scenario.stuff
              Scenario.imports) as (_ & _ & _ & _ & _ & _ & Hrun).
  apply (Hrun Scenario.bundleA "v11" (Scenario.started Scenario.bundleA)).
  reflexivity.
Defined.

(* ================================================================== *)
(** ** One notification per request *)
(* ================================================================== *)

Section ExactlyOnce.

Variable stuff : Stuff.
Variable imp : Imports.

Hypothesis loader_settles :
  forall h bundle options, importBundle imp h bundle options <> NeverSettles.
Hypothesis export_returns :
  forall h v slot, exists k, addExport stuff h v slot = Ret k.
Hypothesis admin_known :
  forall h, exists a, vatNameToID stuff h "vatAdmin" = Ret a.
Hypothesis queue_returns :
  forall h a slot method args policy,
    queueToExport stuff h a slot method args policy = Ret tt.

Lemma afterImport_settles (loaded : Settles Namespace) :
  loaded <> NeverSettles -> afterImport loaded <> NeverSettles.
Proof.
  destruct loaded as [ns|e|]; cbn; intro H; [|discriminate|contradiction].
  destruct (negb _); discriminate.
Qed.

Ltac oracle_contradiction :=
  match goal with
  | H : addExport stuff ?h ?v ?s = Throw _ |- _ =>
      let Hret := fresh "Hret" in
      destruct (export_returns h v s) as [? Hret]; rewrite Hret in H;
      discriminate H
  | H : vatNameToID stuff ?h "vatAdmin" = Throw _ |- _ =>
      let Hret := fresh "Hret" in
      destruct (admin_known h) as [? Hret]; rewrite Hret in H;
      discriminate H
  | H : queueToExport stuff _ _ _ _ _ _ = Throw _ |- _ =>
      rewrite queue_returns in H; discriminate H
  end.

Lemma Live_terminate (k : nat) (e : Value) (i : Instance) :
  Live imp k i -> Live imp k (act stuff imp (Terminate e) i).
Proof.
  unfold Live.
  rewrite terminate_pipe, terminate_newVatCallbacks, act_closure. tauto.
Qed.

Lemma Live_tick (k : nat) (i : Instance) :
  Live imp k i -> Live imp (S k) (act stuff imp Tick i).
Proof.
  destruct i as [c [h t] p]. unfold Live. cbn [pipe world closure].
  intros (Hk & Hwf & Hq & Hargs & Hnone & Hone).
  destruct p as [n s | n q | s].
  - cbn in Hwf.
    destruct n as [|[|[|[|[|n]]]]]; [| | | | | lia]; destruct s;
      try contradiction.
    all: try (destruct (Hargs _ eq_refl) as (result & slots & Hs);
              try discriminate Hs; injection Hs as ->).
    all: unfold_machine; unfold_handlers; cbn in *.
    all: break_match; cbn in *; try oracle_contradiction.
    all: filters.
    all: repeat apply conj.
    all: try (intros; discriminate).
    all: try (destruct k as [|[|[|[|[|[|k]]]]]]; cbn in *; lia).
    all: try lia.
    all: try (intros; apply Hnone; lia).
    all: try (intros ? ? Hq'; injection Hq' as _ <-;
              first [ discriminate
                    | apply afterImport_settles, loader_settles ]).
    all: try (intros ? Hs'; injection Hs' as <-; do 2 eexists;
              unfold capData; reflexivity).
    all: try (intros _; rewrite (Hnone ltac:(lia)); cbn;
              do 3 eexists; unfold creationMessage, capData;
              match goal with
              | H : queueToExport _ _ _ _ _ _ _ = Ret ?u |- _ =>
                  destruct u
              end; reflexivity).
    all: try (intros _; apply Hone; lia).
  - cbn in Hwf. subst n. specialize (Hq _ _ eq_refl).
    destruct q; [| |contradiction]; unfold_machine; cbn in *.
    all: repeat apply conj.
    all: try (intros; discriminate).
    all: try (destruct k as [|[|[|[|[|[|k]]]]]]; cbn in *; lia).
    all: try lia.
    all: try (intros; apply Hnone; lia).
  - unfold_machine; cbn in *.
    repeat apply conj; try (intros; discriminate); try lia.
    intros _. apply Hone. lia.
Qed.

Lemma Live_run (schedule : list Action) (k : nat) (i : Instance) :
  Live imp k i -> Live imp (k + ticks schedule) (run stuff imp schedule i).
Proof.
  revert k i. induction schedule as [|a rest IH]; intros k i Hi.
  - cbn. rewrite Nat.add_0_r. exact Hi.
  - rewrite run_cons, ticks_cons. destruct a; cbn [isTick].
    + replace (k + (1 + ticks rest)) with (S k + ticks rest) by lia.
      apply IH, Live_tick, Hi.
    + cbn. apply IH, Live_terminate, Hi.
Qed.

Lemma created_Live (bundle : Value) (v : VatID) (inst : Instance) :
  createVatDynamically stuff imp bundle = Ret (v, inst) -> Live imp 0 inst.
Proof.
  intro H. destruct (created _ _ _ _ _ H) as (m & _ & _ & ->).
  unfold Live. cbn.
  repeat apply conj; try reflexivity; try lia; try (intros; discriminate).
Qed.

Lemma exactly_one_when_notification_succeeds
    (bundle : Value) (v : VatID) (inst : Instance) (schedule : list Action) :
  createVatDynamically stuff imp bundle = Ret (v, inst) ->
  5 <= ticks schedule ->
  exists a result slots,
    newVatCallbacks (run stuff imp schedule inst)
      = [creationMessage imp v a result slots (Ret tt)].
Proof.
  intros H Hticks.
  pose proof (Live_run schedule 0 inst (created_Live _ _ _ H))
    as (Hk & _ & _ & _ & _ & Hone).
  rewrite run_closure in Hone.
  destruct (created _ _ _ _ _ H) as (m & _ & _ & Hinst).
  replace (vatID (closure inst)) with v in Hone by (rewrite Hinst; reflexivity).
  apply Hone. rewrite Hk. cbn [Nat.add]. lia.
Qed.

End ExactlyOnce.

(** C1, as stated, fails: with an export table that throws, the vat is
    loaded and registered, the chain runs to its end, and no
    [newVatCallback] is ever enqueued; the error is logged instead. *)
Lemma C1_counterexample :
  createVatDynamically Scenario.stuffExportFails Scenario.imports
    Scenario.bundleA
    = Ret ("v11", Scenario.started Scenario.bundleA) /\
  pipe (run Scenario.stuffExportFails Scenario.imports
          [Tick; Tick; Tick; Tick; Tick; Tick]
          (Scenario.started Scenario.bundleA))
    = Finished (Fulfilled JUndefined) /\
  filter isAddVatManager
    (history (world (run Scenario.stuffExportFails Scenario.imports
                       [Tick; Tick; Tick; Tick; Tick; Tick]
                       (Scenario.started Scenario.bundleA))))
    <> [] /\
  newVatCallbacks
    (run Scenario.stuffExportFails Scenario.imports
       [Tick; Tick; Tick; Tick; Tick; Tick]
       (Scenario.started Scenario.bundleA))
    = [] /\
  filter (fun ev => match ev with CallConsoleError _ _ => true | _ => false end)
    (history (world (run Scenario.stuffExportFails Scenario.imports
                       [Tick; Tick; Tick; Tick; Tick; Tick]
                       (Scenario.started Scenario.bundleA))))
    = [CallConsoleError "error in createVatDynamically"
         (Error "unknown vatID")].
Proof.
  repeat split; try reflexivity. vm_compute. discriminate.
Qed.

(* ================================================================== *)
(** ** The failure path *)
(* ================================================================== *)

Section FailurePath.

Variable stuff : Stuff.
Variable imp : Imports.

Lemma run_unreachable_idle (schedule : list Action) (i : Instance) :
  notifierReachable i = false ->
  ticks schedule = 0 ->
  run stuff imp schedule i = i.
Proof.
  intro Hq. induction schedule as [|a rest IH]; [reflexivity|].
  rewrite ticks_cons, run_cons. destruct a; cbn [isTick]; [lia|].
  intro H0. rewrite terminate_unreachable by exact Hq. apply IH. exact H0.
Qed.

Lemma run_unreachable_tick (schedule : list Action) (i : Instance) (n : nat) :
  notifierReachable i = false ->
  ticks schedule = S n ->
  exists rest,
    run stuff imp schedule i = run stuff imp rest (act stuff imp Tick i) /\
    ticks rest = n.
Proof.
  intro Hq. induction schedule as [|a rest IH]; [discriminate|].
  rewrite ticks_cons, run_cons. destruct a; cbn [isTick]; intro Hn.
  - exists rest. split; [reflexivity | lia].
  - rewrite terminate_unreachable by exact Hq. apply IH. exact Hn.
Qed.

Lemma run_finished_unreachable (schedule : list Action) (i : Instance)
    (s : Settled) :
  pipe i = Finished s ->
  notifierReachable i = false ->
  run stuff imp schedule i = i.
Proof.
  intros Hp Hq. induction schedule as [|a rest IH]; [reflexivity|].
  rewrite run_cons. destruct a.
  - replace (act stuff imp Tick i) with i; [exact IH|].
    destruct i as [c w p]. cbn in Hp. subst p. reflexivity.
  - rewrite terminate_unreachable by exact Hq. exact IH.
Qed.

(** Once a response [args] is ready for [sendResponse] and the vat has not
    been registered, the rest of the run is determined: the notification is
    sent by the next job and nothing else happens, except that a throw of
    [queueToExport] is logged. *)
Lemma send_path (c : Closure) (h : History) (t : bool) (args : Value)
    (a : VatID) (schedule : list Action) :
  existsb isAddVatManager h = false ->
  vatNameToID stuff h "vatAdmin" = Ret a ->
  1 <= ticks schedule ->
  exists r tail,
    history (world (run stuff imp schedule
                      {| closure := c;
                         world := {| history := h; terminated := t |};
                         pipe := Job 3 (Fulfilled args) |}))
      = (h ++
         [CallVatNameToID "vatAdmin" (Ret a);
          CallQueueToExport a (makeVatRootObjectSlot imp) "newVatCallback"
            args "logFailure" r] ++ tail)%list /\
    (tail = [] \/
     exists e, r = Throw e /\
               tail = [CallConsoleError "error in createVatDynamically" e]).
Proof.
  intros Hh Ha Hticks.
  destruct (ticks schedule) as [|n] eqn:Hn; [lia|].
  destruct (run_unreachable_tick schedule
              {| closure := c;
                 world := {| history := h; terminated := t |};
                 pipe := Job 3 (Fulfilled args) |} n)
    as (rest & -> & Hrest); [exact Hh | exact Hn |].
  unfold_machine; unfold_handlers. cbn. rewrite Ha. cbn.
  set (r := queueToExport stuff _ a _ "newVatCallback" args "logFailure").
  exists r.
  assert (Hsent :
    existsb isAddVatManager
      ((h ++ [CallVatNameToID "vatAdmin" (Ret a)]) ++
       [CallQueueToExport a (makeVatRootObjectSlot imp) "newVatCallback"
          args "logFailure" r])%list = false).
  { rewrite !existsb_app, Hh. reflexivity. }
  destruct (ticks rest) as [|n'] eqn:Hn'.
  - exists []. split; [|left; reflexivity].
    rewrite run_unreachable_idle.
    + destruct r; cbn; rewrite <- app_assoc; reflexivity.
    + destruct r; exact Hsent.
    + exact Hn'.
  - destruct r as [u|e] eqn:Hr.
    + exists []. split; [|left; reflexivity].
      edestruct run_unreachable_tick as (rest' & -> & _);
        [| exact Hn' |]; [exact Hsent|].
      unfold_machine. cbn.
      erewrite run_finished_unreachable;
        [cbn; rewrite <- app_assoc; reflexivity | reflexivity | exact Hsent].
    + exists [CallConsoleError "error in createVatDynamically" e].
      split; [|right; exists e; split; reflexivity].
      edestruct run_unreachable_tick as (rest' & -> & _);
        [| exact Hn' |]; [exact Hsent|].
      unfold_machine; unfold_handlers. cbn.
      erewrite run_finished_unreachable.
      * cbn. rewrite <- !app_assoc. reflexivity.
      * reflexivity.
      * unfold notifierReachable. cbn. rewrite existsb_app, Hsent.
        reflexivity.
Qed.

(** A rejection of the loading stage, before any registration, ends in
    the failure notification built from the rejection. *)
Lemma rejected_load_path (c : Closure) (h : History) (t : bool) (e : Value)
    (a : VatID) (schedule : list Action) :
  existsb isAddVatManager h = false ->
  vatNameToID stuff h "vatAdmin" = Ret a ->
  4 <= ticks schedule ->
  exists r tail,
    history (world (run stuff imp schedule
                      {| closure := c;
                         world := {| history := h; terminated := t |};
                         pipe := Adopting 0 (Rejects e) |}))
      = (h ++
         [CallVatNameToID "vatAdmin" (Ret a);
          creationMessage imp (vatID c) a (failureResult (toString e)) [] r]
         ++ tail)%list /\
    (tail = [] \/
     exists e', r = Throw e' /\
                tail = [CallConsoleError "error in createVatDynamically" e']).
Proof.
  intros Hh Ha Hticks.
  destruct (ticks schedule) as [|[|[|n]]] eqn:Hn; try lia.
  edestruct run_unreachable_tick as (s1 & -> & H1); [| exact Hn |];
    [exact Hh|].
  unfold_machine. cbn.
  edestruct run_unreachable_tick as (s2 & -> & H2); [| exact H1 |];
    [exact Hh|].
  unfold_machine. cbn.
  edestruct run_unreachable_tick as (s3 & -> & H3); [| exact H2 |];
    [exact Hh|].
  unfold_machine; unfold_handlers. cbn.
  apply send_path; [exact Hh | exact Ha | lia].
Qed.

End FailurePath.

Lemma filter_failure_history (P : Event -> bool) (h : History)
    (sent : Event) (a : VatID) (r : Outcome unit) (tail : History) :
  P (CallVatNameToID "vatAdmin" (Ret a)) = false ->
  (tail = [] \/
   exists e, r = Throw e /\
             tail = [CallConsoleError "error in createVatDynamically" e]) ->
  (forall e, P (CallConsoleError "error in createVatDynamically" e) = false) ->
  filter P (h ++ [CallVatNameToID "vatAdmin" (Ret a); sent] ++ tail)%list
    = (filter P h ++ (if P sent then [sent] else []))%list.
Proof.
  intros Hname Htail Hlog.
  rewrite !filter_app. cbn [filter]. rewrite Hname.
  destruct Htail as [-> | (e & _ & ->)]; cbn [filter].
  - rewrite app_nil_r. reflexivity.
  - rewrite Hlog, app_nil_r. reflexivity.
Qed.

(** C3, as stated, fails: for the bundle ["not-an-object"] the one message
    enqueued carries the error text with the prefix that stringifying an
    [Error] adds, not the bare message. *)
Lemma C3_counterexample :
  createVatDynamically Scenario.stuff Scenario.imports
    (JString "not-an-object")
    = Ret ("v11", Scenario.started (JString "not-an-object")) /\
  filter isQueueToExport
    (history (world (run Scenario.stuff Scenario.imports
                       [Tick; Tick; Tick; Tick; Tick; Tick]
                       (Scenario.started (JString "not-an-object")))))
    = [CallQueueToExport "v2" "o+0" "newVatCallback"
         (JObject
            [("body",
              JSON_stringify
                (JArray
                   [JString "v11";
                    JObject
                      [("error",
                        JString
                          "Error: createVatDynamically() requires bundle, not a plain string")]]));
             ("slots", JArray [])])
         "logFailure" (Ret tt)] /\
  JSON_stringify
    (JArray
       [JString "v11";
        JObject
          [("error",
            JString
              "Error: createVatDynamically() requires bundle, not a plain string")]])
  <>
  JSON_stringify
    (JArray
       [JString "v11";
        JObject
          [("error",
            JString
              "createVatDynamically() requires bundle, not a plain string")]]).
Proof.
  split; [reflexivity|]. split; [reflexivity|].
  vm_compute. discriminate.
Qed.

(** C3 (amended): when the bundle is a plain string and the administrator
    vat is known, a run of five or more jobs calls neither [importBundle]
    nor [addVatManager] nor [addExport], and enqueues exactly one message:
    the [newVatCallback] whose body is the vat id followed by
    [{ error: "Error: createVatDynamically() requires bundle, not a plain
    string" }] (the stringified [Error], prefix included) and whose slot
    list is empty. *)
Theorem C3_plain_string_bundle
    (stuff : Stuff) (imp : Imports) (s : string)
    (v a : VatID) (inst : Instance) (schedule : list Action) :
  createVatDynamically stuff imp (JString s) = Ret (v, inst) ->
  vatNameToID stuff (history (world inst)) "vatAdmin" = Ret a ->
  5 <= ticks schedule ->
  filter isImportBundle (history (world (run stuff imp schedule inst))) = [] /\
  filter isAddVatManager (history (world (run stuff imp schedule inst))) = [] /\
  exports (run stuff imp schedule inst) = [] /\
  exists r,
    filter isQueueToExport (history (world (run stuff imp schedule inst)))
      = [CallQueueToExport a (makeVatRootObjectSlot imp) "newVatCallback"
           (JObject
              [("body",
                JSON_stringify
                  (JArray
                     [JString v;
                      JObject
                        [("error",
                          JString
                            "Error: createVatDynamically() requires bundle, not a plain string")]]));
               ("slots", JArray [])])
           "logFailure" r].
Proof.
  intros H Ha Hticks.
  destruct (created _ _ _ _ _ H) as (m & _ & _ & ->). cbn in Ha.
  destruct (ticks schedule) as [|n] eqn:Hn; [lia|].
  edestruct run_unreachable_tick as (rest & -> & Hrest); [| exact Hn |];
    [reflexivity|].
  unfold_machine; unfold_handlers. cbn.
  assert (Hrest' : 4 <= ticks rest) by lia.
  destruct (rejected_load_path stuff imp
              {| vatSourceBundle := JString s; vatID := v; meterRecord := m |}
              [CallAllocateUnusedVatID (Ret v);
               CallMakeGetMeter
                 {| refillEachCrank := false; refillIfExhausted := false |}
                 (Ret m)]
              false validationError a rest eq_refl Ha Hrest')
    as (r & tail & Hhist & Htail).
  cbn [vatID] in Hhist. unfold exports, validationError in *. rewrite Hhist.
  repeat split; try exists r;
    erewrite filter_failure_history by
      (first [eassumption | reflexivity | intro; reflexivity]);
    reflexivity.
Qed.

Lemma C3_witness :
  createVatDynamically Scenario.stuff Scenario.imports
    (JString "not-an-object")
    = Ret ("v11", Scenario.started (JString "not-an-object")) /\
  5 <= ticks [Tick; Tick; Tick; Tick; Tick] /\
  exists r,
    filter isQueueToExport
      (history (world (run Scenario.stuff Scenario.imports
                         [Tick; Tick; Tick; Tick; Tick]
                         (Scenario.started (JString "not-an-object")))))
      = [CallQueueToExport "v2" (makeVatRootObjectSlot Scenario.imports)
           "newVatCallback"
           (JObject
              [("body",
                JSON_stringify
                  (JArray
                     [JString "v11";
                      JObject
                        [("error",
                          JString
                            "Error: createVatDynamically() requires bundle, not a plain string")]]));
               ("slots", JArray [])])
           "logFailure" r].
Proof.
  split; [reflexivity|]. split; [vm_compute; lia|].
  apply (C3_plain_string_bundle Scenario.stuff Scenario.imports
           "not-an-object" "v11" "v2"
           (Scenario.started (JString "not-an-object"))
           [Tick; Tick; Tick; Tick; Tick]);
    [reflexivity | reflexivity | vm_compute; lia].
Defined.

(** C6, as stated, fails: for a bundle whose module exports no
    [buildRootObject] the one message enqueued carries the error text with
    the prefix that stringifying an [Error] adds, not the bare message. *)
Lemma C6_counterexample :
  createVatDynamically Scenario.stuff Scenario.imports Scenario.bundleB
    = Ret ("v11", Scenario.started Scenario.bundleB) /\
  typeof (get Scenario.bundleB "buildRootObject") <> "function" /\
  filter isQueueToExport
    (history (world (run Scenario.stuff Scenario.imports
                       [Tick; Tick; Tick; Tick; Tick; Tick]
                       (Scenario.started Scenario.bundleB))))
    = [CallQueueToExport "v2" "o+0" "newVatCallback"
         (JObject
            [("body",
              JSON_stringify
                (JArray
                   [JString "v11";
                    JObject
                      [("error",
                        JString
                          "Error: vat source bundle does not export buildRootObject function")]]));
             ("slots", JArray [])])
         "logFailure" (Ret tt)] /\
  JSON_stringify
    (JArray
       [JString "v11";
        JObject
          [("error",
            JString
              "Error: vat source bundle does not export buildRootObject function")]])
  <>
  JSON_stringify
    (JArray
       [JString "v11";
        JObject
          [("error",
            JString
              "vat source bundle does not export buildRootObject function")]]).
Proof.
  split; [reflexivity|]. split; [discriminate|]. split; [reflexivity|].
  vm_compute. discriminate.
Qed.

(** C6 (amended): when the bundle passes the bundle check and loads, but
    the loaded module has no [buildRootObject] function, a run of five or
    more jobs takes the failure path: [addVatManager] and [addExport] are
    never called, and exactly one message is enqueued, the [newVatCallback]
    whose body is the vat id followed by [{ error: "Error: vat source
    bundle does not export buildRootObject function" }] (the stringified
    [Error], prefix included) and whose slot list is empty. *)
Theorem C6_missing_buildRootObject
    (stuff : Stuff) (imp : Imports) (bundle en : Value) (ns : Namespace)
    (v a : VatID) (inst : Instance) (schedule : list Action) :
  createVatDynamically stuff imp bundle = Ret (v, inst) ->
  typeof bundle = "object" ->
  makeVatEndowments stuff (history (world inst)) v = Ret en ->
  (forall h options, importBundle imp h bundle options = Fulfils ns) ->
  typeof (get (JObject ns) "buildRootObject") <> "function" ->
  (forall h, vatNameToID stuff h "vatAdmin" = Ret a) ->
  5 <= ticks schedule ->
  filter isAddVatManager (history (world (run stuff imp schedule inst))) = [] /\
  exports (run stuff imp schedule inst) = [] /\
  exists r,
    filter isQueueToExport (history (world (run stuff imp schedule inst)))
      = [CallQueueToExport a (makeVatRootObjectSlot imp) "newVatCallback"
           (JObject
              [("body",
                JSON_stringify
                  (JArray
                     [JString v;
                      JObject
                        [("error",
                          JString
                            "Error: vat source bundle does not export buildRootObject function")]]));
               ("slots", JArray [])])
           "logFailure" r].
Proof.
  intros H Hty Hen Hload Hmiss Ha Hticks.
  destruct (created _ _ _ _ _ H) as (m & _ & _ & ->). cbn in Hen.
  destruct (ticks schedule) as [|n] eqn:Hn; [lia|].
  edestruct run_unreachable_tick as (rest & -> & Hrest); [| exact Hn |];
    [reflexivity|].
  apply String.eqb_neq in Hmiss. cbn in Hmiss.
  unfold_machine; unfold_handlers. cbn.
  rewrite Hty. cbn. rewrite Hen. cbn. rewrite Hload. cbn.
  rewrite Hmiss. cbn.
  assert (Hrest' : 4 <= ticks rest) by lia.
  match goal with
  | |- context [run stuff imp rest
                  {| closure := ?c;
                     world := {| history := ?h; terminated := ?t |};
                     pipe := Adopting 0 (Rejects ?e) |}] =>
      destruct (rejected_load_path stuff imp c h t e a rest eq_refl (Ha h)
                  Hrest') as (r & tail & Hhist & Htail)
  end.
  cbn [vatID] in Hhist. unfold exports. rewrite Hhist.
  repeat split; try exists r;
    erewrite filter_failure_history by
      (first [eassumption | reflexivity | intro; reflexivity]);
    reflexivity.
Qed.

Lemma C6_witness :
  createVatDynamically Scenario.stuff Scenario.imports Scenario.bundleB
    = Ret ("v11", Scenario.started Scenario.bundleB) /\
  typeof Scenario.bundleB = "object" /\
  5 <= ticks [Tick; Tick; Tick; Tick; Tick] /\
  exports
    (run Scenario.stuff Scenario.imports [Tick; Tick; Tick; Tick; Tick]
       (Scenario.started Scenario.bundleB)) = [] /\
  exists r,
    filter isQueueToExport
      (history (world (run Scenario.stuff Scenario.imports
                         [Tick; Tick; Tick; Tick; Tick]
                         (Scenario.started Scenario.bundleB))))
      = [CallQueueToExport "v2" (makeVatRootObjectSlot Scenario.imports)
           "newVatCallback"
           (JObject
              [("body",
                JSON_stringify
                  (JArray
                     [JString "v11";
                      JObject
                        [("error",
                          JString
                            "Error: vat source bundle does not export buildRootObject function")]]));
               ("slots", JArray [])])
           "logFailure" r].
Proof.
  split; [reflexivity|]. split; [reflexivity|]. split; [vm_compute; lia|].
  apply (C6_missing_buildRootObject Scenario.stuff Scenario.imports
           Scenario.bundleB (JObject [])
           [("start", JFunction "start" "")] "v11" "v2"
           (Scenario.started Scenario.bundleB)
           [Tick; Tick; Tick; Tick; Tick]);
    try reflexivity.
  discriminate.
Defined.

(* ================================================================== *)
(** ** The success path *)
(* ================================================================== *)

Section SuccessPath.

Variable stuff : Stuff.
Variable imp : Imports.
Variable c : Closure.
Variable ns : Namespace.
Variable a : VatID.
Variable k : KernelSlot.

Hypothesis bundle_is_object : typeof (vatSourceBundle c) = "object".
Hypothesis endowments_return :
  forall h, exists en, makeVatEndowments stuff h (vatID c) = Ret en.
Hypothesis bundle_loads :
  forall h options,
    importBundle imp h (vatSourceBundle c) options = Fulfils ns.
Hypothesis exports_constructor :
  typeof (get (JObject ns) "buildRootObject") = "function".
Hypothesis registration_returns :
  forall h name setup options m,
    addVatManager stuff h (vatID c) name setup options m = Ret tt.
Hypothesis export_returns :
  forall h, addExport stuff h (vatID c) (makeVatRootObjectSlot imp) = Ret k.
Hypothesis admin_known :
  forall h, vatNameToID stuff h "vatAdmin" = Ret a.

Lemma SuccessPhase_terminate (n : nat) (e : Value) (i : Instance) :
  SuccessPhase imp c (get (JObject ns) "buildRootObject") a k n i ->
  SuccessPhase imp c (get (JObject ns) "buildRootObject") a k n (act stuff imp (Terminate e) i).
Proof.
  unfold SuccessPhase.
  rewrite terminate_pipe, terminate_newVatCallbacks, terminate_exports,
    act_closure.
  tauto.
Qed.

Lemma SuccessPhase_tick (n : nat) (i : Instance) :
  SuccessPhase imp c (get (JObject ns) "buildRootObject") a k n i ->
  SuccessPhase imp c (get (JObject ns) "buildRootObject") a k (S n) (act stuff imp Tick i).
Proof.
  destruct i as [c' [h t] p]. unfold SuccessPhase.
  cbn [pipe world closure]. intros [-> Hn]. split; [apply act_closure|].
  destruct n as [|[|[|[|[|n]]]]].
  - destruct Hn as (-> & He & Hs).
    unfold_machine; unfold_handlers. cbn.
    rewrite bundle_is_object. cbn.
    destruct (endowments_return h) as [en ->]. cbn.
    rewrite bundle_loads. unfold afterImport.
    rewrite exports_constructor. cbn.
    filters. repeat split; assumption.
  - destruct Hn as (-> & He & Hs).
    unfold_machine. cbn. repeat split; assumption.
  - destruct Hn as (-> & He & Hs).
    unfold_machine; unfold_handlers. cbn.
    rewrite registration_returns. cbn.
    filters. repeat split; assumption.
  - destruct Hn as (-> & He & Hs).
    unfold_machine; unfold_handlers. cbn.
    rewrite export_returns. cbn.
    filters. rewrite He. repeat split; assumption.
  - destruct Hn as (-> & He & Hs).
    unfold_machine; unfold_handlers. cbn.
    rewrite admin_known. cbn.
    match goal with
    | |- context [queueToExport stuff ?h' ?v ?s ?m ?x ?p] =>
        destruct (queueToExport stuff h' v s m x p) as [u|e] eqn:Hq
    end; cbn; filters; rewrite He, Hs; cbn;
      (split; [eexists; left; reflexivity|]);
      (split; [reflexivity|]); eexists; reflexivity.
  - destruct Hn as ((s & [-> | ->]) & He & Hs).
    + destruct s as [x|e]; unfold_machine; unfold_handlers; cbn;
        filters; (split; [eexists; right; reflexivity|]);
        split; assumption.
    + unfold_machine. cbn.
      split; [eexists; right; reflexivity|]. split; assumption.
Qed.

Lemma SuccessPhase_run (schedule : list Action) (n : nat) (i : Instance) :
  SuccessPhase imp c (get (JObject ns) "buildRootObject") a k n i ->
  SuccessPhase imp c (get (JObject ns) "buildRootObject") a k (n + ticks schedule) (run stuff imp schedule i).
Proof.
  revert n i. induction schedule as [|x rest IH]; intros n i Hi.
  - cbn. rewrite Nat.add_0_r. exact Hi.
  - rewrite run_cons, ticks_cons. destruct x; cbn [isTick].
    + replace (n + (1 + ticks rest)) with (S n + ticks rest) by lia.
      apply IH, SuccessPhase_tick, Hi.
    + cbn. apply IH, SuccessPhase_terminate, Hi.
Qed.

Lemma success_path (t : bool) (h : History) (schedule : list Action) :
  filter isAddExport h = [] ->
  filter isNewVatCallback h = [] ->
  5 <= ticks schedule ->
  exports
    (run stuff imp schedule
       {| closure := c;
          world := {| history := h; terminated := t |};
          pipe := Job 0 (Fulfilled JUndefined) |})
    = [CallAddExport (vatID c) (makeVatRootObjectSlot imp) (Ret k)] /\
  exists r,
    newVatCallbacks
      (run stuff imp schedule
         {| closure := c;
            world := {| history := h; terminated := t |};
            pipe := Job 0 (Fulfilled JUndefined) |})
      = [creationMessage imp (vatID c) a successResult [JString k] r].
Proof.
  intros He Hs Hticks.
  pose proof (@SuccessPhase_run schedule 0
                {| closure := c;
                   world := {| history := h; terminated := t |};
                   pipe := Job 0 (Fulfilled JUndefined) |}) as Hrun.
  cbn [Nat.add] in Hrun.
  destruct (ticks schedule) as [|[|[|[|[|n]]]]]; try lia.
  destruct Hrun as (_ & _ & Hexp & Hnew).
  - split; [reflexivity|]. repeat split; assumption.
  - split; assumption.
Qed.

End SuccessPath.

(** C7: on the success path (the bundle passes the check and loads, its
    module exports a [buildRootObject] function, registration and the
    notification step return), a run of five or more jobs, under any
    interleaving with termination events, calls [addExport] exactly once,
    for the new vat and the vat slot [makeVatSlot('object', true, 0)] of its
    root object, and enqueues exactly one [newVatCallback], whose body is
    the vat id followed by [{ rootObject: { '@qclass': 'slot', index: 0 } }]
    and whose slot list is exactly the kernel slot that [addExport]
    returned, so that index 0 of the body refers to it. *)
Theorem C7_success_notification
    (stuff : Stuff) (imp : Imports) (bundle : Value) (ns : Namespace)
    (v a : VatID) (k : KernelSlot) (inst : Instance)
    (schedule : list Action) :
  createVatDynamically stuff imp bundle = Ret (v, inst) ->
  typeof bundle = "object" ->
  (forall h, exists en, makeVatEndowments stuff h v = Ret en) ->
  (forall h options, importBundle imp h bundle options = Fulfils ns) ->
  typeof (get (JObject ns) "buildRootObject") = "function" ->
  (forall h name setup options m,
     addVatManager stuff h v name setup options m = Ret tt) ->
  (forall h, addExport stuff h v (makeVatRootObjectSlot imp) = Ret k) ->
  (forall h, vatNameToID stuff h "vatAdmin" = Ret a) ->
  5 <= ticks schedule ->
  makeVatRootObjectSlot imp = makeVatSlot imp "object" true 0 /\
  exports (run stuff imp schedule inst)
    = [CallAddExport v (makeVatSlot imp "object" true 0) (Ret k)] /\
  exists r,
    newVatCallbacks (run stuff imp schedule inst)
      = [CallQueueToExport a (makeVatRootObjectSlot imp) "newVatCallback"
           (JObject
              [("body",
                JSON_stringify
                  (JArray
                     [JString v;
                      JObject
                        [("rootObject",
                          JObject [("@qclass", JString "slot");
                                   ("index", JNumber 0)])]]));
               ("slots", JArray [JString k])])
           "logFailure" r].
Proof.
  intros H Hty Hen Hload Hfun Hreg Hexp Hadm Hticks.
  destruct (created _ _ _ _ _ H) as (m & _ & _ & ->).
  split; [reflexivity|].
  apply (success_path stuff imp
           {| vatSourceBundle := bundle; vatID := v; meterRecord := m |}
           ns a k Hty Hen Hload Hfun Hreg Hexp Hadm);
    [reflexivity | reflexivity | exact Hticks].
Qed.

Lemma C7_witness :
  createVatDynamically Scenario.stuff Scenario.imports Scenario.bundleA
    = Ret ("v11", Scenario.started Scenario.bundleA) /\
  5 <= ticks [Tick; Tick; Tick; Terminate (JError "Error" "boom"); Tick;
              Tick; Tick] /\
  exports
    (run Scenario.stuff Scenario.imports
       [Tick; Tick; Tick; Terminate (JError "Error" "boom"); Tick; Tick; Tick]
       (Scenario.started Scenario.bundleA))
    = [CallAddExport "v11" (makeVatSlot Scenario.imports "object" true 0)
         (Ret "ko42")] /\
  exists r,
    newVatCallbacks
      (run Scenario.stuff Scenario.imports
         [Tick; Tick; Tick; Terminate (JError "Error" "boom"); Tick; Tick;
          Tick]
         (Scenario.started Scenario.bundleA))
      = [CallQueueToExport "v2" (makeVatRootObjectSlot Scenario.imports)
           "newVatCallback"
           (JObject
              [("body",
                JSON_stringify
                  (JArray
                     [JString "v11";
                      JObject
                        [("rootObject",
                          JObject [("@qclass", JString "slot");
                                   ("index", JNumber 0)])]]));
               ("slots", JArray [JString "ko42"])])
           "logFailure" r].
Proof.
  split; [reflexivity|]. split; [vm_compute; lia|].
  apply (C7_success_notification Scenario.stuff Scenario.imports
           Scenario.bundleA
           [("buildRootObject", JFunction "buildRootObject" "")]
           "v11" "v2" "ko42" (Scenario.started Scenario.bundleA)
           [Tick; Tick; Tick; Terminate (JError "Error" "boom"); Tick; Tick;
            Tick]).
  - reflexivity.
  - reflexivity.
  - intro h. exists (JObject []). reflexivity.
  - intros h options. reflexivity.
  - reflexivity.
  - intros. reflexivity.
  - intro h. reflexivity.
  - intro h. reflexivity.
  - vm_compute. lia.
Defined.

(* ================================================================== *)
(** ** Errors stay inside the chain *)
(* ================================================================== *)

Lemma finished_absorbing (stuff : Stuff) (imp : Imports)
    (schedule : list Action) (i : Instance) (s : Settled) :
  pipe i = Finished s ->
  pipe (run stuff imp schedule i) = Finished s /\
  newVatCallbacks (run stuff imp schedule i) = newVatCallbacks i /\
  exports (run stuff imp schedule i) = exports i.
Proof.
  revert i. induction schedule as [|a rest IH]; intros i Hp.
  - repeat split. exact Hp.
  - rewrite run_cons. destruct a.
    + replace (act stuff imp Tick i) with i; [apply IH, Hp|].
      destruct i as [c w p]. cbn in Hp. subst p. reflexivity.
    + destruct (IH (act stuff imp (Terminate error) i)) as (H1 & H2 & H3).
      * rewrite terminate_pipe. exact Hp.
      * rewrite H1, H2, H3, terminate_newVatCallbacks, terminate_exports.
        repeat split.
Qed.

(** The two allocations run before the chain exists: what they throw is
    thrown by [createVatDynamically] itself, to its caller. *)
Lemma allocation_throw_propagates (stuff : Stuff) (imp : Imports)
    (bundle : Value) (e : Value) :
  allocateUnusedVatID stuff [] = Throw e ->
  createVatDynamically stuff imp bundle = Throw e.
Proof.
  intro H. unfold createVatDynamically, invoke. cbn. rewrite H. reflexivity.
Qed.

(** C9: once [createVatDynamically] has returned, no error of the chain
    escapes it: under no schedule does the chain end in an unhandled
    rejection.  A rejection of the loading stage, or a throw of
    [addVatManager] (construction and registration), travels to
    [makeErrorResponse] and becomes the failure response that
    [sendResponse] is given.  A throw of [addExport] while the success
    response is composed skips [sendResponse], and a throw of [vatNameToID]
    or [queueToExport] while the response is enqueued ends it; either is
    passed to [console.error] and the chain finishes fulfilled.  A finished
    chain sends nothing more. *)
Theorem C9_errors_stay_inside_the_chain
    (stuff : Stuff) (imp : Imports) (bundle : Value)
    (v : VatID) (inst : Instance) :
  createVatDynamically stuff imp bundle = Ret (v, inst) ->
  (forall schedule,
     ~ unhandledRejection (pipe (run stuff imp schedule inst))) /\
  (forall c w e,
     runJob (chain stuff imp c) (Adopting 0 (Rejects e)) w
       = (Job 1 (Rejected e), w)) /\
  (forall c w e,
     runJob (chain stuff imp c) (Job 1 (Rejected e)) w
       = (Job 2 (Rejected e), w)) /\
  (forall c w buildRootObject e,
     (forall setup,
        addVatManager stuff (history w) (vatID c) ("dynamicVat" ++ vatID c)
          setup (JObject []) (meterRecord c) = Throw e) ->
     fst (runJob (chain stuff imp c) (Job 1 (Fulfilled buildRootObject)) w)
       = Job 2 (Rejected e)) /\
  (forall c w e,
     runJob (chain stuff imp c) (Job 2 (Rejected e)) w
       = (Job 3
            (Fulfilled
               (JObject
                  [("body",
                    JSON_stringify
                      (JArray
                         [JString (vatID c);
                          JObject [("error", JString (toString e))]]));
                   ("slots", JArray [])])),
          w)) /\
  (forall c w x e,
     addExport stuff (history w) (vatID c) (makeVatRootObjectSlot imp)
       = Throw e ->
     runJob (chain stuff imp c) (Job 2 (Fulfilled x)) w
       = (Job 3 (Rejected e),
          log (CallAddExport (vatID c) (makeVatRootObjectSlot imp) (Throw e))
              w)) /\
  (forall c w e,
     runJob (chain stuff imp c) (Job 3 (Rejected e)) w
       = (Job 4 (Rejected e), w)) /\
  (forall c w args e,
     vatNameToID stuff (history w) "vatAdmin" = Throw e ->
     runJob (chain stuff imp c) (Job 3 (Fulfilled args)) w
       = (Job 4 (Rejected e), log (CallVatNameToID "vatAdmin" (Throw e)) w)) /\
  (forall c w args a e,
     vatNameToID stuff (history w) "vatAdmin" = Ret a ->
     queueToExport stuff
       (history w ++ [CallVatNameToID "vatAdmin" (Ret a)])%list a
       (makeVatRootObjectSlot imp) "newVatCallback" args "logFailure"
       = Throw e ->
     runJob (chain stuff imp c) (Job 3 (Fulfilled args)) w
       = (Job 4 (Rejected e),
          log (CallQueueToExport a (makeVatRootObjectSlot imp)
                 "newVatCallback" args "logFailure" (Throw e))
            (log (CallVatNameToID "vatAdmin" (Ret a)) w))) /\
  (forall c w e,
     runJob (chain stuff imp c) (Job 4 (Rejected e)) w
       = (Finished (Fulfilled JUndefined),
          log (CallConsoleError "error in createVatDynamically" e) w)) /\
  (forall schedule i s,
     pipe i = Finished s ->
     pipe (run stuff imp schedule i) = Finished s /\
     newVatCallbacks (run stuff imp schedule i) = newVatCallbacks i).
Proof.
  intro H. repeat apply conj.
  - intro schedule.
    pose proof (Inv_run stuff imp schedule 0 inst (created_Inv _ _ _ _ _ H))
      as (_ & _ & _ & Hrej & _).
    exact Hrej.
  - reflexivity.
  - reflexivity.
  - intros c w buildRootObject e Hthrow.
    unfold_machine; unfold_handlers. cbn. rewrite Hthrow. reflexivity.
  - reflexivity.
  - intros c w x e Hthrow.
    unfold_machine; unfold_handlers. cbn. rewrite Hthrow. reflexivity.
  - reflexivity.
  - intros c w args e Hthrow.
    unfold_machine; unfold_handlers. cbn. rewrite Hthrow. reflexivity.
  - intros c w args a e Ha Hthrow.
    unfold_machine; unfold_handlers. cbn. rewrite Ha. cbn.
    rewrite Hthrow. reflexivity.
  - reflexivity.
  - intros schedule i s Hp.
    destruct (finished_absorbing stuff imp schedule i s Hp) as (H1 & H2 & _).
    split; assumption.
Qed.

Lemma C9_witness :
  createVatDynamically Scenario.stuffExportFails Scenario.imports
    Scenario.bundleA
    = Ret ("v11", Scenario.started Scenario.bundleA) /\
  ~ unhandledRejection
      (pipe (run Scenario.stuffExportFails Scenario.imports
               [Tick; Tick; Tick; Tick; Tick; Tick]
               (Scenario.started Scenario.bundleA))).
Proof.
  split; [reflexivity|].
  destruct (C9_errors_stay_inside_the_chain Scenario.stuffExportFails
              Scenario.imports Scenario.bundleA "v11"
              (Scenario.started Scenario.bundleA) eq_refl) as (Hsafe & _).
  apply Hsafe.
Defined.

(* ================================================================== *)
(** ** Further properties: the entry point *)
(* ================================================================== *)

(** X1: [createVatDynamically] throws exactly when one of its two
    synchronous allocations throws, and then throws that very value to its
    caller: what [allocateUnusedVatID] threw, or, the vat id being already
    taken, what [makeGetMeter] threw.  Otherwise it returns the id that
    [allocateUnusedVatID] returned. *)
Theorem X1_entry_point_errors
    (stuff : Stuff) (imp : Imports) (bundle : Value) :
  (forall e,
     createVatDynamically stuff imp bundle = Throw e <->
     (allocateUnusedVatID stuff [] = Throw e \/
      exists v,
        allocateUnusedVatID stuff [] = Ret v /\
        makeGetMeter stuff [CallAllocateUnusedVatID (Ret v)]
          {| refillEachCrank := false; refillIfExhausted := false |}
          = Throw e)) /\
  (forall v inst,
     createVatDynamically stuff imp bundle = Ret (v, inst) ->
     allocateUnusedVatID stuff [] = Ret v).
Proof.
  unfold createVatDynamically, invoke, log. cbn.
  destruct (allocateUnusedVatID stuff []) as [v0|e0] eqn:Ha; cbn.
  - destruct (makeGetMeter stuff _ _) as [m|e1] eqn:Hm; cbn.
    + split.
      * intro e. split; [discriminate|].
        intros [H | (v & Hv & He)]; [discriminate|].
        injection Hv as <-. rewrite Hm in He. discriminate.
      * intros v inst H. injection H as -> _. reflexivity.
    + split.
      * intro e. split.
        -- intro H. injection H as ->. right. exists v0. split; [reflexivity|].
           exact Hm.
        -- intros [H | (v & Hv & He)]; [discriminate|].
           injection Hv as <-. rewrite Hm in He. injection He as ->.
           reflexivity.
      * intros v inst H. discriminate.
  - split.
    + intro e. split.
      * intro H. left. injection H as ->. reflexivity.
      * intros [H | (v & Hv & _)]; [|discriminate].
        injection H as ->. reflexivity.
    + intros v inst H. discriminate.
Qed.

Lemma X1_witness :
  createVatDynamically Faults.stuffMeterFails Scenario.imports
    Scenario.bundleA
    = Throw (Error "metering not available").
Proof.
  apply (X1_entry_point_errors Faults.stuffMeterFails Scenario.imports
           Scenario.bundleA).
  right. exists "v11". split; reflexivity.
Defined.

(* ================================================================== *)
(** ** Further properties: invariants of every run *)
(* ================================================================== *)

Section RunInvariants.

Variable stuff : Stuff.
Variable imp : Imports.

Lemma run_invariant (P : Instance -> Prop) :
  (forall i, P i -> P (act stuff imp Tick i)) ->
  (forall e i, P i -> P (act stuff imp (Terminate e) i)) ->
  forall schedule i, P i -> P (run stuff imp schedule i).
Proof.
  intros Htick Hterm schedule.
  induction schedule as [|a rest IH]; intros i Hi; [exact Hi|].
  rewrite run_cons. apply IH. destruct a; [apply Htick | apply Hterm];
    exact Hi.
Qed.

Ltac impossible_link :=
  match goal with
  | H : nth_error [] ?n = Some _ |- _ => destruct n; discriminate H
  end.

Lemma tick_termination_state (i : Instance) :
  terminated (world (act stuff imp Tick i)) = terminated (world i) /\
  vatTerminateds (act stuff imp Tick i) = vatTerminateds i.
Proof.
  destruct i as [c [h t] p].
  destruct p as [n s | n q | s].
  - destruct n as [|[|[|[|[|n]]]]]; destruct s;
      unfold_machine; unfold_handlers; cbn in *;
      break_match; cbn in *; filters; try (split; reflexivity);
      impossible_link.
  - destruct q; unfold_machine; cbn in *; break_match; cbn;
      split; reflexivity.
  - split; reflexivity.
Qed.

Lemma act_history_grows (a : Action) (i : Instance) :
  exists extra,
    history (world (act stuff imp a i)) = (history (world i) ++ extra)%list.
Proof.
  destruct i as [c [h t] p]. destruct a.
  - destruct p as [n s | n q | s].
    + destruct n as [|[|[|[|[|n]]]]]; destruct s;
        unfold_machine; unfold_handlers; cbn in *;
        break_match; cbn in *;
        try impossible_link;
        repeat rewrite <- app_assoc;
        solve [ eexists; reflexivity
              | exists []; rewrite app_nil_r; reflexivity ].
    + destruct q; unfold_machine; cbn in *; break_match; cbn;
        exists []; rewrite app_nil_r; reflexivity.
    + exists []. rewrite app_nil_r. reflexivity.
  - unfold act. destruct (notifierReachable _).
    + unfold_handlers. cbn. destruct t; cbn.
      * exists []. rewrite app_nil_r. reflexivity.
      * break_match; cbn; repeat rewrite <- app_assoc;
          eexists; reflexivity.
    + exists []. rewrite app_nil_r. reflexivity.
Qed.

Lemma reachable_monotone (a : Action) (i : Instance) :
  notifierReachable i = true ->
  notifierReachable (act stuff imp a i) = true.
Proof.
  unfold notifierReachable. intro H.
  destruct (act_history_grows a i) as [extra ->].
  rewrite existsb_app, H. reflexivity.
Qed.

End RunInvariants.

Section ShapeInvariant.

Variable stuff : Stuff.
Variable imp : Imports.

Lemma afterImport_function (loaded : Settles Namespace) (x : Value) :
  afterImport loaded = Fulfils x -> typeof x = "function".
Proof.
  unfold afterImport. destruct loaded as [ns|e|]; try discriminate.
  destruct (String.eqb_spec (typeof (get (JObject ns) "buildRootObject"))
              "function") as [Heq|Hne]; cbn [negb]; [|discriminate].
  intro H. injection H as <-. exact Heq.
Qed.

Lemma ShapeInv_terminate (e : Value) (i : Instance) :
  ShapeInv stuff imp i -> ShapeInv stuff imp (act stuff imp (Terminate e) i).
Proof.
  unfold ShapeInv. rewrite terminate_pipe, act_closure.
  intros [Hall Hfun]. split; [|exact Hfun].
  unfold act. destruct (notifierReachable i); [|exact Hall].
  destruct i as [c [h t] p]. unfold_handlers. cbn in *.
  destruct t; cbn; [exact Hall|].
  break_match; cbn; repeat rewrite Forall_app; repeat split;
    try exact Hall;
    repeat (apply Forall_cons || apply Forall_nil); cbn; auto 6.
Qed.

Lemma ShapeInv_tick (i : Instance) :
  ShapeInv stuff imp i -> ShapeInv stuff imp (act stuff imp Tick i).
Proof.
  destruct i as [c [h t] p]. unfold ShapeInv. cbn [pipe world closure history].
  intros [Hall Hfun].
  destruct p as [n s | n q | s].
  - destruct n as [|[|[|[|[|n]]]]]; destruct s.
    all: unfold_machine; unfold_handlers; cbn [fst snd pipe world closure
                                               history terminated].
    all: cbn.
    all: break_match; cbn.
    all: try match goal with
             | H : nth_error [] ?n = Some _ |- _ =>
                 destruct n; discriminate H
             end.
    all: (split;
          [ repeat rewrite Forall_app; repeat split; try exact Hall;
            repeat (apply Forall_cons || apply Forall_nil); cbn; auto 6
          | intros x [Hx|Hx]; try discriminate ]).
    all: try (injection Hx as Hx; eapply afterImport_function; exact Hx).
    all: try (repeat (split; [reflexivity|]);
              eexists; split; [reflexivity|]; intro; reflexivity).
    all: try (repeat (split; [reflexivity|]);
              eexists; split; [eapply Hfun; right; reflexivity|];
              intros; reflexivity).
  - destruct n as [|[|[|[|[|n]]]]]; destruct q; unfold_machine; cbn.
    all: (split; [exact Hall | intros x [Hx|Hx]; try discriminate]).
    all: try (injection Hx as <-; apply Hfun; left; reflexivity).
    all: try (apply Hfun; left; exact Hx).
    all: destruct n; discriminate.
  - unfold_machine; cbn. split; [exact Hall|].
    intros x [Hx|Hx]; discriminate.
Qed.

End ShapeInvariant.

Lemma ShapeInv_run (stuff : Stuff) (imp : Imports) (bundle : Value)
    (v : VatID) (inst : Instance) (schedule : list Action) :
  createVatDynamically stuff imp bundle = Ret (v, inst) ->
  Forall (CallShape stuff imp (closure inst))
         (history (world (run stuff imp schedule inst))).
Proof.
  intro H.
  assert (Hrun : ShapeInv stuff imp (run stuff imp schedule inst)).
  { apply run_invariant.
    - apply ShapeInv_tick.
    - apply ShapeInv_terminate.
    - destruct (created _ _ _ _ _ H) as (m & _ & _ & ->).
      split; [repeat constructor|]. intros x [Hx|Hx]; discriminate. }
  destruct Hrun as [Hall _]. rewrite run_closure in Hall. exact Hall.
Qed.

(** X2: whatever the collaborators do and however jobs and termination
    events interleave, every message a call enqueues goes to the root
    object slot with the policy ['logFailure'] and the method
    [newVatCallback] or [vatTerminated]; the only vat name it ever looks up
    is ['vatAdmin']; the only export it ever asks for is the root object
    slot of its own vat; and the only thing it logs is an error of
    [createVatDynamically]. *)
Theorem X2_calls_are_well_addressed
    (stuff : Stuff) (imp : Imports) (bundle : Value)
    (v : VatID) (inst : Instance) (schedule : list Action) :
  createVatDynamically stuff imp bundle = Ret (v, inst) ->
  (forall target slot method args policy r,
     In (CallQueueToExport target slot method args policy r)
        (history (world (run stuff imp schedule inst))) ->
     slot = makeVatRootObjectSlot imp /\
     policy = "logFailure" /\
     (method = "newVatCallback" \/ method = "vatTerminated")) /\
  (forall name r,
     In (CallVatNameToID name r)
        (history (world (run stuff imp schedule inst))) ->
     name = "vatAdmin") /\
  (forall owner slot r,
     In (CallAddExport owner slot r)
        (history (world (run stuff imp schedule inst))) ->
     owner = v /\ slot = makeVatRootObjectSlot imp) /\
  (forall msg err,
     In (CallConsoleError msg err)
        (history (world (run stuff imp schedule inst))) ->
     msg = "error in createVatDynamically").
Proof.
  intro H.
  pose proof (ShapeInv_run stuff imp bundle v inst schedule H) as Hall.
  rewrite Forall_forall in Hall.
  destruct (created _ _ _ _ _ H) as (m & _ & _ & Hinst).
  assert (Hv : vatID (closure inst) = v) by (rewrite Hinst; reflexivity).
  repeat apply conj.
  - intros target slot method args policy r Hin. exact (Hall _ Hin).
  - intros name r Hin. exact (Hall _ Hin).
  - intros owner slot r Hin. rewrite <- Hv. exact (Hall _ Hin).
  - intros msg err Hin. exact (Hall _ Hin).
Qed.

Lemma X2_witness :
  createVatDynamically Scenario.stuff Scenario.imports Scenario.bundleA
    = Ret ("v11", Scenario.started Scenario.bundleA) /\
  In (CallQueueToExport "v2" "o+0" "vatTerminated"
        (capData
           (JSON_stringify
              (JArray [JString "v11";
                       terminationDescriptor (JError "Error" "boom")]))
           [])
        "logFailure" (Ret tt))
     (history
        (world (run Scenario.stuff Scenario.imports
                  [Tick; Tick; Tick; Terminate (JError "Error" "boom"); Tick]
                  (Scenario.started Scenario.bundleA)))) /\
  "o+0" = makeVatRootObjectSlot Scenario.imports /\
  "logFailure" = "logFailure" /\
  ("vatTerminated" = "newVatCallback" \/ "vatTerminated" = "vatTerminated").
Proof.
  split; [reflexivity|].
  assert (Hin :
    In (CallQueueToExport "v2" "o+0" "vatTerminated"
          (capData
             (JSON_stringify
                (JArray [JString "v11";
                         terminationDescriptor (JError "Error" "boom")]))
             [])
          "logFailure" (Ret tt))
       (history
          (world (run Scenario.stuff Scenario.imports
                    [Tick; Tick; Tick; Terminate (JError "Error" "boom");
                     Tick]
                    (Scenario.started Scenario.bundleA))))).
  { cbn. do 6 right. left. reflexivity. }
  split; [exact Hin|].
  destruct (X2_calls_are_well_addressed Scenario.stuff Scenario.imports
              Scenario.bundleA "v11" (Scenario.started Scenario.bundleA)
              [Tick; Tick; Tick; Terminate (JError "Error" "boom"); Tick]
              eq_refl) as (Hq & _).
  exact (Hq _ _ _ _ _ _ Hin).
Defined.

(** X3: whenever a call reaches [importBundle], it passes the bundle it was
    given, the vat id as [filePrefix], exactly one inescapable transform,
    which is [transformMetering] applied with the [getMeter] of the meter
    record allocated for this vat, and that same [getMeter] as the only
    inescapable global lexical. *)
Theorem X3_loader_gets_the_vat_meter
    (stuff : Stuff) (imp : Imports) (bundle : Value)
    (v : VatID) (inst : Instance) (schedule : list Action) :
  createVatDynamically stuff imp bundle = Ret (v, inst) ->
  forall loadedBundle options r,
    In (CallImportBundle loadedBundle options r)
       (history (world (run stuff imp schedule inst))) ->
    loadedBundle = bundle /\
    filePrefix options = v /\
    inescapableGlobalLexicals options
      = [("getMeter", getMeter (meterRecord (closure inst)))] /\
    exists transform,
      inescapableTransforms options = [transform] /\
      forall src,
        transform src
          = transformMetering stuff src
              (getMeter (meterRecord (closure inst))).
Proof.
  intros H loadedBundle options r Hin.
  pose proof (ShapeInv_run stuff imp bundle v inst schedule H) as Hall.
  rewrite Forall_forall in Hall. specialize (Hall _ Hin). cbn in Hall.
  destruct (created _ _ _ _ _ H) as (m & _ & _ & Hinst).
  rewrite Hinst in *. exact Hall.
Qed.

(** X4: whenever a call reaches [addVatManager], it registers the vat under
    its own id and the name [dynamicVat] followed by that id, with empty
    options and the meter record allocated for it; the [setup] it hands
    over builds the vat with [makeLiveSlots] from a [buildRootObject] that
    is a function, takes the vat id from [helpers], always passes
    [dynamicVatPowers], and ignores the vat powers it is called with. *)
Theorem X4_registration_arguments
    (stuff : Stuff) (imp : Imports) (bundle : Value)
    (v : VatID) (inst : Instance) (schedule : list Action) :
  createVatDynamically stuff imp bundle = Ret (v, inst) ->
  forall owner name setup options m r,
    In (CallAddVatManager owner name setup options m r)
       (history (world (run stuff imp schedule inst))) ->
    owner = v /\
    name = "dynamicVat" ++ v /\
    options = JObject [] /\
    m = meterRecord (closure inst) /\
    exists buildRootObject,
      typeof buildRootObject = "function" /\
      forall syscall state helpers vatPowers,
        setup syscall state helpers vatPowers
          = makeLiveSlots imp syscall state buildRootObject
              (helpers_vatID helpers) (dynamicVatPowers stuff).
Proof.
  intros H owner name setup options m r Hin.
  pose proof (ShapeInv_run stuff imp bundle v inst schedule H) as Hall.
  rewrite Forall_forall in Hall. specialize (Hall _ Hin). cbn in Hall.
  destruct (created _ _ _ _ _ H) as (m0 & _ & _ & Hinst).
  rewrite Hinst in *. exact Hall.
Qed.

Lemma X3_witness :
  createVatDynamically Scenario.stuff Scenario.imports Scenario.bundleA
    = Ret ("v11", Scenario.started Scenario.bundleA) /\
  exists options r,
    In (CallImportBundle Scenario.bundleA options r)
       (history (world (run Scenario.stuff Scenario.imports [Tick]
                          (Scenario.started Scenario.bundleA)))) /\
    filePrefix options = "v11" /\
    inescapableGlobalLexicals options
      = [("getMeter", getMeter Scenario.meter)] /\
    exists transform,
      inescapableTransforms options = [transform] /\
      forall src,
        transform src
          = transformMetering Scenario.stuff src (getMeter Scenario.meter).
Proof.
  split; [reflexivity|].
  assert (Hin :
    In (CallImportBundle Scenario.bundleA
          {| filePrefix := "v11";
             endowments := JObject [];
             inescapableTransforms :=
               [fun src =>
                  transformMetering Scenario.stuff src
                    (getMeter Scenario.meter)];
             inescapableGlobalLexicals :=
               [("getMeter", getMeter Scenario.meter)] |}
          (Fulfils [("buildRootObject", JFunction "buildRootObject" "")]))
       (history (world (run Scenario.stuff Scenario.imports [Tick]
                          (Scenario.started Scenario.bundleA))))).
  { cbn. do 3 right. left. reflexivity. }
  do 2 eexists. split; [exact Hin|].
  apply (X3_loader_gets_the_vat_meter Scenario.stuff Scenario.imports
           Scenario.bundleA "v11" (Scenario.started Scenario.bundleA) [Tick]
           eq_refl _ _ _ Hin).
Defined.

Lemma X4_witness :
  createVatDynamically Scenario.stuff Scenario.imports Scenario.bundleA
    = Ret ("v11", Scenario.started Scenario.bundleA) /\
  exists setup,
    In (CallAddVatManager "v11" "dynamicVatv11" setup (JObject [])
          Scenario.meter (Ret tt))
       (history (world (run Scenario.stuff Scenario.imports
                          [Tick; Tick; Tick]
                          (Scenario.started Scenario.bundleA)))) /\
    exists buildRootObject,
      typeof buildRootObject = "function" /\
      forall syscall state helpers vatPowers,
        setup syscall state helpers vatPowers
          = makeLiveSlots Scenario.imports syscall state buildRootObject
              (helpers_vatID helpers) (dynamicVatPowers Scenario.stuff).
Proof.
  split; [reflexivity|].
  eexists.
  assert (Hin :
    In (CallAddVatManager "v11" "dynamicVatv11"
          (fun syscall state helpers _ =>
             makeLiveSlots Scenario.imports syscall state
               (JFunction "buildRootObject" "") (helpers_vatID helpers)
               (dynamicVatPowers Scenario.stuff))
          (JObject []) Scenario.meter (Ret tt))
       (history (world (run Scenario.stuff Scenario.imports
                          [Tick; Tick; Tick]
                          (Scenario.started Scenario.bundleA))))).
  { cbn. do 4 right. left. reflexivity. }
  split; [exact Hin|].
  apply (X4_registration_arguments Scenario.stuff Scenario.imports
           Scenario.bundleA "v11" (Scenario.started Scenario.bundleA)
           [Tick; Tick; Tick] eq_refl _ _ _ _ _ _ Hin).
Defined.

Section CountInvariant.

Variable stuff : Stuff.
Variable imp : Imports.

Ltac count_simpl :=
  cbn [pipe world history closure progress wellFormed fst snd] in *;
  repeat rewrite filter_app; repeat rewrite existsb_app;
  cbn [filter existsb isMakeVatEndowments isImportBundle isAddVatManager
       isAddExport loadedOk registeredOk orb app length] in *.

Lemma afterImport_loadedOk (bundle : Value) (options : ImportOptions)
    (loaded : Settles Namespace) (x : Value) :
  afterImport loaded = Fulfils x ->
  loadedOk (CallImportBundle bundle options loaded) = true.
Proof.
  unfold afterImport, loadedOk. destruct loaded as [ns|e|]; try discriminate.
  destruct (String.eqb (typeof (get (JObject ns) "buildRootObject"))
              "function"); cbn [negb]; [reflexivity | discriminate].
Qed.

Lemma CountInv_terminate (e : Value) (i : Instance) :
  CountInv i -> CountInv (act stuff imp (Terminate e) i).
Proof.
  unfold CountInv. rewrite terminate_pipe.
  unfold act. destruct (notifierReachable i); [|tauto].
  destruct i as [c [h t] p]. unfold_handlers. cbn in *.
  destruct t; cbn; [tauto|].
  break_match; count_simpl; repeat rewrite app_nil_r;
    repeat rewrite orb_false_r; tauto.
Qed.

Lemma CountInv_tick (i : Instance) :
  CountInv i -> CountInv (act stuff imp Tick i).
Proof.
  destruct i as [c [h t] p]. unfold CountInv.
  cbn [pipe world history].
  intros (Hwf & He1 & Hi1 & Hr1 & Hx1 & H0 & H2 & H3 & Hload & Hreg & Hrl
          & Hxr).
  destruct p as [n s | n q | s].
  - cbn in Hwf.
    destruct n as [|[|[|[|[|n]]]]]; [| | | | | lia]; destruct s;
      try contradiction.
    all: cbn [progress] in *.
    all: try (destruct (H0 eq_refl) as [E1 E2]).
    all: try (assert (E3 := H2 ltac:(lia))).
    all: try (assert (E4 := H3 ltac:(lia))).
    all: unfold_machine; unfold_handlers; cbn.
    all: break_match; count_simpl.
    all: repeat rewrite app_nil_r; repeat rewrite orb_false_r.
    all: rewrite ?E1, ?E2, ?E3, ?E4 in *; cbn [app length] in *.
    all: repeat apply conj; intros; try lia; try discriminate;
         try assumption; try tauto; try reflexivity.
    all: try (match goal with
              | H : _ \/ _ |- _ => destruct H as [H|H]; try discriminate H;
                                   injection H as H
              end).
    all: try (erewrite afterImport_loadedOk by eassumption;
              apply orb_true_r).
    all: try (apply orb_true_r).
    all: try (eapply Hload; right; reflexivity).
    all: try (eapply Hreg; reflexivity).
    all: try (apply Hrl; assumption).
    all: try (apply Hxr; assumption).
    apply orb_true_iff. right.
    match goal with
    | H : afterImport ?l = Fulfils _ |- _ =>
        unfold afterImport in H; destruct l; try discriminate H;
        match type of H with
        | context [String.eqb ?u ?w] =>
            destruct (String.eqb u w); [reflexivity | discriminate H]
        end
    end.
  - cbn in Hwf. subst n.
    destruct q; unfold_machine; cbn.
    all: cbn [progress] in *.
    all: repeat apply conj; intros; try lia; try discriminate;
         try assumption; try tauto.
    all: try (apply H2; lia); try (apply H3; lia).
    all: try (match goal with
              | H : _ \/ _ |- _ => destruct H as [H|H]; try discriminate H;
                                   injection H as <-
              end; eapply Hload; left; reflexivity).
  - unfold_machine; cbn.
    repeat apply conj; intros; try lia; try discriminate;
      try assumption; try tauto.
    eapply Hload. eassumption.
Qed.

End CountInvariant.

Lemma CountInv_run (stuff : Stuff) (imp : Imports) (bundle : Value)
    (v : VatID) (inst : Instance) (schedule : list Action) :
  createVatDynamically stuff imp bundle = Ret (v, inst) ->
  CountInv (run stuff imp schedule inst).
Proof.
  intro H. apply run_invariant.
  - apply CountInv_tick.
  - apply CountInv_terminate.
  - destruct (created _ _ _ _ _ H) as (m & _ & _ & ->).
    unfold CountInv. cbn.
    repeat apply conj; intros; try lia; try reflexivity; try discriminate;
      try tauto.
    destruct H0; discriminate.
Qed.

(** X5: whatever the collaborators do and however jobs and termination
    events interleave, one call to [createVatDynamically] builds the
    endowments, loads the bundle, registers a vat manager and allocates an
    export slot at most once each. *)
Theorem X5_each_stage_runs_at_most_once
    (stuff : Stuff) (imp : Imports) (bundle : Value)
    (v : VatID) (inst : Instance) (schedule : list Action) :
  createVatDynamically stuff imp bundle = Ret (v, inst) ->
  length (filter isMakeVatEndowments
            (history (world (run stuff imp schedule inst)))) <= 1 /\
  length (filter isImportBundle
            (history (world (run stuff imp schedule inst)))) <= 1 /\
  length (filter isAddVatManager
            (history (world (run stuff imp schedule inst)))) <= 1 /\
  length (exports (run stuff imp schedule inst)) <= 1.
Proof.
  intro H.
  pose proof (CountInv_run stuff imp bundle v inst schedule H)
    as (_ & He & Hi & Hr & Hx & _).
  repeat split; assumption.
Qed.

Lemma X5_witness :
  createVatDynamically Scenario.stuff Scenario.imports Scenario.bundleA
    = Ret ("v11", Scenario.started Scenario.bundleA) /\
  length (filter isAddVatManager
            (history
               (world (run Scenario.stuff Scenario.imports
                         [Tick; Tick; Tick; Tick; Tick; Tick; Tick]
                         (Scenario.started Scenario.bundleA))))) <= 1.
Proof.
  split; [reflexivity|].
  apply (X5_each_stage_runs_at_most_once Scenario.stuff Scenario.imports
           Scenario.bundleA "v11" (Scenario.started Scenario.bundleA)
           [Tick; Tick; Tick; Tick; Tick; Tick; Tick] eq_refl).
Defined.

(** X6: the stages happen in order.  In every run, an export slot has been
    asked for only if a call to [addVatManager] returned before, and
    [addVatManager] has been called only if [importBundle] fulfilled before
    with a module whose [buildRootObject] is a function. *)
Theorem X6_export_after_registration_after_load
    (stuff : Stuff) (imp : Imports) (bundle : Value)
    (v : VatID) (inst : Instance) (schedule : list Action) :
  createVatDynamically stuff imp bundle = Ret (v, inst) ->
  (exports (run stuff imp schedule inst) <> [] ->
   existsb registeredOk (history (world (run stuff imp schedule inst)))
     = true) /\
  (filter isAddVatManager (history (world (run stuff imp schedule inst)))
     <> [] ->
   existsb loadedOk (history (world (run stuff imp schedule inst))) = true).
Proof.
  intro H.
  pose proof (CountInv_run stuff imp bundle v inst schedule H)
    as (_ & _ & _ & _ & _ & _ & _ & _ & _ & _ & Hrl & Hxr).
  split; assumption.
Qed.

Lemma X6_witness :
  createVatDynamically Scenario.stuff Scenario.imports Scenario.bundleA
    = Ret ("v11", Scenario.started Scenario.bundleA) /\
  exports (run Scenario.stuff Scenario.imports [Tick; Tick; Tick; Tick]
             (Scenario.started Scenario.bundleA)) <> [] /\
  existsb registeredOk
    (history (world (run Scenario.stuff Scenario.imports
                       [Tick; Tick; Tick; Tick]
                       (Scenario.started Scenario.bundleA)))) = true.
Proof.
  split; [reflexivity|].
  assert (Hexp :
    exports (run Scenario.stuff Scenario.imports [Tick; Tick; Tick; Tick]
               (Scenario.started Scenario.bundleA)) <> []).
  { vm_compute. discriminate. }
  split; [exact Hexp|].
  destruct (X6_export_after_registration_after_load Scenario.stuff
              Scenario.imports Scenario.bundleA "v11"
              (Scenario.started Scenario.bundleA) [Tick; Tick; Tick; Tick]
              eq_refl) as [Hreg _].
  exact (Hreg Hexp).
Defined.

(* ================================================================== *)
(** ** Further properties: other ways to fail *)
(* ================================================================== *)






Section RegistrationFailure.

Variable stuff : Stuff.
Variable imp : Imports.
Variable c : Closure.
Variable ns : Namespace.
Variable e : Value.
Variable a : VatID.

Hypothesis bundle_is_object : typeof (vatSourceBundle c) = "object".
Hypothesis endowments_return :
  forall h, exists en, makeVatEndowments stuff h (vatID c) = Ret en.
Hypothesis bundle_loads :
  forall h options,
    importBundle imp h (vatSourceBundle c) options = Fulfils ns.
Hypothesis exports_constructor :
  typeof (get (JObject ns) "buildRootObject") = "function".
Hypothesis registration_throws :
  forall h name setup options m,
    addVatManager stuff h (vatID c) name setup options m = Throw e.
Hypothesis admin_known :
  forall h, vatNameToID stuff h "vatAdmin" = Ret a.




End RegistrationFailure.



Lemma filter_nil_existsb (A : Type) (f : A -> bool) (l : list A) :
  filter f l = [] -> existsb f l = false.
Proof.
  induction l as [|x rest IH]; cbn; [reflexivity|].
  destruct (f x); cbn; [discriminate | exact IH].
Qed.

(** X11: there is no timeout.  When the bundle passes the bundle check and
    the promise of [importBundle] never settles, the chain stays suspended
    at the [await] after its first job, however long it is run: the vat is
    never registered, no export slot is allocated, and no message at all is
    enqueued for the administrator vat. *)
Theorem X11_hanging_loader_never_notifies
    (stuff : Stuff) (imp : Imports) (bundle : Value)
    (v : VatID) (inst : Instance) (schedule : list Action) :
  createVatDynamically stuff imp bundle = Ret (v, inst) ->
  typeof bundle = "object" ->
  (forall h, exists en, makeVatEndowments stuff h v = Ret en) ->
  (forall h options, importBundle imp h bundle options = NeverSettles) ->
  filter isQueueToExport (history (world (run stuff imp schedule inst))) = [] /\
  filter isAddVatManager (history (world (run stuff imp schedule inst))) = [] /\
  exports (run stuff imp schedule inst) = [] /\
  (1 <= ticks schedule ->
   pipe (run stuff imp schedule inst) = Adopting 0 NeverSettles).
Proof.
  intros H Hty Hen Hload.
  destruct (created _ _ _ _ _ H) as (m & _ & _ & ->).
  set (c := {| vatSourceBundle := bundle; vatID := v; meterRecord := m |}).
  set (Q := fun (n : nat) (i : Instance) =>
    closure i = c /\
    filter isQueueToExport (history (world i)) = [] /\
    filter isAddVatManager (history (world i)) = [] /\
    exports i = [] /\
    match n with
    | 0 => pipe i = Job 0 (Fulfilled JUndefined)
    | _ => pipe i = Adopting 0 NeverSettles
    end).
  assert (Hrun : forall sched n i,
            Q n i -> Q (n + ticks sched) (run stuff imp sched i)).
  { induction sched as [|x rest IH]; intros n i Hi.
    - cbn. rewrite Nat.add_0_r. exact Hi.
    - rewrite run_cons, ticks_cons. destruct x; cbn [isTick].
      + replace (n + (1 + ticks rest)) with (S n + ticks rest) by lia.
        apply IH. destruct i as [c' [h t] p].
        destruct Hi as (Hc & Hq & Hr & Hx & Hp). cbn in Hc, Hq, Hr, Hx, Hp.
        subst c'. unfold Q.
        destruct n as [|n]; rewrite Hp.
        * unfold_machine; unfold_handlers. cbn.
          rewrite Hty. cbn.
          destruct (Hen h) as [en ->]. cbn. rewrite Hload. cbn.
          filters. repeat split; assumption.
        * unfold_machine. cbn. repeat split; assumption.
      + cbn [Nat.add]. apply IH.
        rewrite terminate_unreachable; [exact Hi|].
        destruct Hi as (_ & _ & Hr & _).
        apply filter_nil_existsb, Hr. }
  specialize (Hrun schedule 0
                {| closure := c;
                   world :=
                     {| history :=
                          [CallAllocateUnusedVatID (Ret v);
                           CallMakeGetMeter
                             {| refillEachCrank := false;
                                refillIfExhausted := false |} (Ret m)];
                        terminated := false |};
                   pipe := Job 0 (Fulfilled JUndefined) |}).
  cbn [Nat.add] in Hrun.
  destruct Hrun as (_ & Hq & Hr & Hx & Hp); [repeat split|].
  repeat split; try assumption.
  intro Hticks. destruct (ticks schedule); [lia | exact Hp].
Qed.

Lemma X11_witness :
  createVatDynamically Scenario.stuff Faults.importsHang Scenario.bundleA
    = Ret ("v11", Scenario.started Scenario.bundleA) /\
  typeof Scenario.bundleA = "object" /\
  filter isQueueToExport
    (history (world (run Scenario.stuff Faults.importsHang
                       [Tick; Tick; Tick; Tick; Tick; Tick; Tick; Tick]
                       (Scenario.started Scenario.bundleA)))) = [].
Proof.
  split; [reflexivity|]. split; [reflexivity|].
  apply (X11_hanging_loader_never_notifies Scenario.stuff Faults.importsHang
           Scenario.bundleA "v11" (Scenario.started Scenario.bundleA)
           [Tick; Tick; Tick; Tick; Tick; Tick; Tick; Tick]).
  - reflexivity.
  - reflexivity.
  - intro h. exists (JObject []). reflexivity.
  - intros h options. reflexivity.
Defined.

(* ================================================================== *)
(** ** Further properties: the termination notifier *)
(* ================================================================== *)

(** X12: [notifyTermination] sets [terminated] before it looks up the
    administrator vat.  When that first lookup throws, the exception goes
    to the caller, no message is enqueued, and none ever will be: any
    number of later invocations leaves the history with the failed lookup
    as its only addition. *)
Theorem X12_failed_termination_notice_is_not_retried
    (stuff : Stuff) (imp : Imports) (c : Closure) (w : World) (e : Value) :
  terminated w = false ->
  vatNameToID stuff (history w) "vatAdmin" = Throw e ->
  forall error later,
    fst (notifyTermination stuff imp c error w) = Throw e /\
    notifyAll stuff imp c (error :: later) w
      = {| history := (history w ++ [CallVatNameToID "vatAdmin" (Throw e)])%list;
           terminated := true |}.
Proof.
  intros Ht Hthrow error later.
  assert (Hfirst :
    notifyTermination stuff imp c error w
      = (Throw e,
         {| history :=
              (history w ++ [CallVatNameToID "vatAdmin" (Throw e)])%list;
            terminated := true |})).
  { destruct w as [h t]. cbn in Ht, Hthrow. subst t.
    unfold_handlers. cbn. rewrite Hthrow. reflexivity. }
  split; [rewrite Hfirst; reflexivity|].
  unfold notifyAll. cbn [fold_left]. rewrite Hfirst. cbn [snd].
  apply notifyAll_terminated. reflexivity.
Qed.

Lemma X12_witness :
  notifyAll Faults.stuffAdminUnknown Scenario.imports
    (closure (Scenario.started Scenario.bundleA))
    [JError "Error" "boom"; JError "Error" "boom"; JUndefined]
    {| history := []; terminated := false |}
  = {| history := [CallVatNameToID "vatAdmin"
                     (Throw (Error "unknown vat name"))];
       terminated := true |}.
Proof.
  apply (X12_failed_termination_notice_is_not_retried
           Faults.stuffAdminUnknown Scenario.imports
           (closure (Scenario.started Scenario.bundleA))
           {| history := []; terminated := false |}
           (Error "unknown vat name") eq_refl eq_refl).
Defined.

Section TerminationRace.

Variable stuff : Stuff.
Variable imp : Imports.
Variable c : Closure.
Variable ns : Namespace.
Variable a : VatID.

Hypothesis bundle_is_object : typeof (vatSourceBundle c) = "object".
Hypothesis endowments_return :
  forall h, exists en, makeVatEndowments stuff h (vatID c) = Ret en.
Hypothesis bundle_loads :
  forall h options,
    importBundle imp h (vatSourceBundle c) options = Fulfils ns.
Hypothesis exports_constructor :
  typeof (get (JObject ns) "buildRootObject") = "function".
Hypothesis admin_known :
  forall h, vatNameToID stuff h "vatAdmin" = Ret a.

Lemma RegisteredPhase_act (n : nat) (x : Action) (i : Instance) :
  RegisteredPhase c (get (JObject ns) "buildRootObject") n i ->
  RegisteredPhase c (get (JObject ns) "buildRootObject")
    (n + (if isTick x then 1 else 0)) (act stuff imp x i).
Proof.
  unfold RegisteredPhase. intros [Hc Hn].
  split; [rewrite act_closure; exact Hc|].
  destruct x; cbn [isTick].
  - replace (n + 1) with (S n) by lia.
    destruct n as [|[|[|n]]].
    + destruct i as [c' [h t] p]. cbn in Hc, Hn. subst c' p.
      unfold_machine; unfold_handlers. cbn.
      rewrite bundle_is_object. cbn.
      destruct (endowments_return h) as [en ->]. cbn.
      rewrite bundle_loads. unfold afterImport.
      rewrite exports_constructor. reflexivity.
    + destruct i as [c' [h t] p]. cbn in Hc, Hn. subst c' p. reflexivity.
    + destruct i as [c' [h t] p]. cbn in Hc, Hn. subst c' p.
      unfold_machine; unfold_handlers. unfold notifierReachable. cbn.
      break_match; cbn; rewrite existsb_app; cbn; apply orb_true_r.
    + apply reachable_monotone, Hn.
  - rewrite Nat.add_0_r.
    destruct n as [|[|[|n]]]; try (rewrite terminate_pipe; exact Hn).
    apply reachable_monotone, Hn.
Qed.

Lemma RegisteredPhase_run (schedule : list Action) (n : nat) (i : Instance) :
  RegisteredPhase c (get (JObject ns) "buildRootObject") n i ->
  RegisteredPhase c (get (JObject ns) "buildRootObject")
    (n + ticks schedule) (run stuff imp schedule i).
Proof.
  revert n i. induction schedule as [|x rest IH]; intros n i Hi.
  - cbn. rewrite Nat.add_0_r. exact Hi.
  - rewrite run_cons, ticks_cons, Nat.add_assoc.
    apply IH, RegisteredPhase_act, Hi.
Qed.

Lemma terminated_stays (schedule : list Action) (i : Instance) :
  terminated (world i) = true ->
  terminated (world (run stuff imp schedule i)) = true.
Proof.
  apply (run_invariant stuff imp
           (fun i => terminated (world i) = true)).
  - intros j Hj. destruct (tick_termination_state stuff imp j) as [-> _].
    exact Hj.
  - intros e j Hj. unfold act. destruct (notifierReachable j); [|exact Hj].
    apply notifyTermination_terminated.
Qed.

Lemma termination_sent (schedule : list Action) (i : Instance) :
  terminated (world i) = false ->
  vatTerminateds i = [] ->
  terminated (world (run stuff imp schedule i)) = true ->
  exists error r,
    vatTerminateds (run stuff imp schedule i)
      = [terminationMessage imp (vatID (closure i)) a error r].
Proof.
  intros Ht Hnone Hfinal.
  assert (Hrun :
    (terminated (world (run stuff imp schedule i)) = false ->
     vatTerminateds (run stuff imp schedule i) = []) /\
    (terminated (world (run stuff imp schedule i)) = true ->
     exists error r,
       vatTerminateds (run stuff imp schedule i)
         = [terminationMessage imp
              (vatID (closure (run stuff imp schedule i))) a error r])).
  { apply (run_invariant stuff imp
             (fun j =>
                (terminated (world j) = false -> vatTerminateds j = []) /\
                (terminated (world j) = true ->
                 exists error r,
                   vatTerminateds j
                     = [terminationMessage imp (vatID (closure j)) a error
                          r]))).
    - intros j Hj. rewrite act_closure.
      destruct (tick_termination_state stuff imp j) as [-> ->]. exact Hj.
    - intros e j [Hf Hs]. rewrite act_closure.
      unfold act. destruct (notifierReachable j); [|split; assumption].
      destruct j as [c' [h t] p]. unfold_handlers.
      cbn [world closure history terminated snd] in *.
      destruct t; cbn [snd world history terminated].
      + split; assumption.
      + cbn. rewrite admin_known. cbn.
        split; [break_match; discriminate|]. intros _.
        break_match; filters; rewrite (Hf eq_refl); cbn;
          exists e; eexists;
          unfold terminationMessage, capData, terminationDescriptor;
          match goal with H : truthy _ = _ |- _ => rewrite H end;
          reflexivity.
    - split; [intros _; exact Hnone|]. rewrite Ht. discriminate. }
  destruct Hrun as [_ Hsent]. rewrite run_closure in Hsent.
  apply Hsent, Hfinal.
Qed.

End TerminationRace.

Lemma run_append (stuff : Stuff) (imp : Imports) (s1 s2 : list Action)
    (i : Instance) :
  run stuff imp (s1 ++ s2)%list i = run stuff imp s2 (run stuff imp s1 i).
Proof. unfold run. apply fold_left_app. Qed.

Lemma ticks_append (s1 s2 : list Action) :
  ticks (s1 ++ s2)%list = ticks s1 + ticks s2.
Proof. unfold ticks. rewrite filter_app, length_app. reflexivity. Qed.

(** X13: a termination does not cancel the creation callback.  On the
    success path, when [notifyTermination] is invoked after the vat manager
    was registered (three jobs) and before or after the notification is
    sent, the run enqueues both messages: exactly one [vatTerminated] for
    the vat and exactly one success [newVatCallback] with the exported root
    slot. *)
Theorem X13_termination_does_not_cancel_creation
    (stuff : Stuff) (imp : Imports) (bundle : Value) (ns : Namespace)
    (v a : VatID) (k : KernelSlot) (inst : Instance)
    (before after : list Action) (error : Value) :
  createVatDynamically stuff imp bundle = Ret (v, inst) ->
  typeof bundle = "object" ->
  (forall h, exists en, makeVatEndowments stuff h v = Ret en) ->
  (forall h options, importBundle imp h bundle options = Fulfils ns) ->
  typeof (get (JObject ns) "buildRootObject") = "function" ->
  (forall h name setup options m,
     addVatManager stuff h v name setup options m = Ret tt) ->
  (forall h, addExport stuff h v (makeVatRootObjectSlot imp) = Ret k) ->
  (forall h, vatNameToID stuff h "vatAdmin" = Ret a) ->
  3 <= ticks before ->
  5 <= ticks before + ticks after ->
  (exists error' r,
     vatTerminateds
       (run stuff imp (before ++ Terminate error :: after)%list inst)
       = [terminationMessage imp v a error' r]) /\
  (exists r,
     newVatCallbacks
       (run stuff imp (before ++ Terminate error :: after)%list inst)
       = [creationMessage imp v a successResult [JString k] r]).
Proof.
  intros H Hty Hen Hload Hfun Hreg Hexp Hadm Hbefore Hticks.
  destruct (created _ _ _ _ _ H) as (m & _ & _ & ->).
  set (c := {| vatSourceBundle := bundle; vatID := v; meterRecord := m |}).
  set (inst := {| closure := c;
                  world :=
                    {| history :=
                         [CallAllocateUnusedVatID (Ret v);
                          CallMakeGetMeter
                            {| refillEachCrank := false;
                               refillIfExhausted := false |} (Ret m)];
                       terminated := false |};
                  pipe := Job 0 (Fulfilled JUndefined) |}).
  split.
  - assert (Hreach : notifierReachable (run stuff imp before inst) = true).
    { pose proof (RegisteredPhase_run stuff imp c ns Hty Hen Hload Hfun
                    before 0 inst (conj eq_refl eq_refl)) as [_ Hphase].
      cbn [Nat.add] in Hphase.
      destruct (ticks before) as [|[|[|n]]]; try lia. exact Hphase. }
    assert (Hfinal :
      terminated
        (world (run stuff imp (before ++ Terminate error :: after)%list inst))
        = true).
    { rewrite run_append, run_cons. apply terminated_stays.
      unfold act. rewrite Hreach. apply notifyTermination_terminated. }
    exact (termination_sent stuff imp a Hadm
             (before ++ Terminate error :: after)%list inst
             eq_refl eq_refl Hfinal).
  - apply (success_path stuff imp c ns a k Hty Hen Hload Hfun Hreg Hexp Hadm);
      [reflexivity | reflexivity |].
    rewrite ticks_append, ticks_cons. cbn [isTick]. lia.
Qed.

Lemma X13_witness :
  createVatDynamically Scenario.stuff Scenario.imports Scenario.bundleA
    = Ret ("v11", Scenario.started Scenario.bundleA) /\
  3 <= ticks [Tick; Tick; Tick] /\
  (exists error' r,
     vatTerminateds
       (run Scenario.stuff Scenario.imports
          ([Tick; Tick; Tick] ++ Terminate (JError "Error" "boom")
             :: [Tick; Tick])%list
          (Scenario.started Scenario.bundleA))
       = [terminationMessage Scenario.imports "v11" "v2" error' r]) /\
  (exists r,
     newVatCallbacks
       (run Scenario.stuff Scenario.imports
          ([Tick; Tick; Tick] ++ Terminate (JError "Error" "boom")
             :: [Tick; Tick])%list
          (Scenario.started Scenario.bundleA))
       = [creationMessage Scenario.imports "v11" "v2" successResult
            [JString "ko42"] r]).
Proof.
  split; [reflexivity|]. split; [vm_compute; lia|].
  apply (X13_termination_does_not_cancel_creation Scenario.stuff
           Scenario.imports Scenario.bundleA
           [("buildRootObject", JFunction "buildRootObject" "")]
           "v11" "v2" "ko42" (Scenario.started Scenario.bundleA)
           [Tick; Tick; Tick] [Tick; Tick] (JError "Error" "boom")).
  - reflexivity.
  - reflexivity.
  - intro h. exists (JObject []). reflexivity.
  - intros h options. reflexivity.
  - reflexivity.
  - intros. reflexivity.
  - intro h. reflexivity.
  - intro h. reflexivity.
  - vm_compute. lia.
  - vm_compute. lia.
Defined.

(** X14: [notifyTermination] only asks whether its argument is truthy and
    reads its [name] and [message].  A falsy argument ([null], [false],
    [0], the empty string) is reported exactly like [undefined], as "no
    error"; and any two non-empty strings are reported alike, as an error
    descriptor without name and message, [JSON.stringify] leaving the
    undefined properties out: the text of a string error is lost. *)
Theorem X14_termination_of_non_Error_arguments
    (stuff : Stuff) (imp : Imports) (c : Closure) (w : World) :
  (forall error,
     truthy error = false ->
     notifyTermination stuff imp c error w
       = notifyTermination stuff imp c JUndefined w) /\
  (forall s1 s2,
     s1 <> "" -> s2 <> "" ->
     notifyTermination stuff imp c (JString s1) w
       = notifyTermination stuff imp c (JString s2) w) /\
  (forall s,
     s <> "" ->
     JSON_stringify (JArray [JString (vatID c); terminationDescriptor (JString s)])
       = JSON_stringify
           (JArray [JString (vatID c); JObject [("@qclass", JString "error")]])).
Proof.
  repeat apply conj.
  - intros error Hfalsy. unfold notifyTermination. rewrite Hfalsy.
    reflexivity.
  - intros s1 s2 H1 H2. unfold notifyTermination. cbn [truthy get].
    apply String.eqb_neq in H1, H2. rewrite H1, H2. cbn [negb].
    reflexivity.
  - intros s Hs. unfold terminationDescriptor. cbn [truthy get].
    apply String.eqb_neq in Hs. rewrite Hs. cbn [negb].
    unfold JSON_stringify. cbn [serialize map flat_map snd fst app].
    reflexivity.
Qed.

Lemma X14_witness :
  truthy (JNumber 0) = false /\
  notifyTermination Scenario.stuff Scenario.imports
    (closure (Scenario.started Scenario.bundleA)) (JNumber 0)
    {| history := []; terminated := false |}
  = notifyTermination Scenario.stuff Scenario.imports
      (closure (Scenario.started Scenario.bundleA)) JUndefined
      {| history := []; terminated := false |}.
Proof.
  split; [reflexivity|].
  destruct (X14_termination_of_non_Error_arguments Scenario.stuff
              Scenario.imports (closure (Scenario.started Scenario.bundleA))
              {| history := []; terminated := false |}) as (Hfalsy & _).
  exact (Hfalsy (JNumber 0) eq_refl).
Defined.

(* ================================================================== *)
(** ** Further properties: the chain always completes *)
(* ================================================================== *)

Section Completion.

Variable stuff : Stuff.
Variable imp : Imports.

Hypothesis loader_settles :
  forall h bundle options, importBundle imp h bundle options <> NeverSettles.

Lemma completes_tick (k : nat) (i : Instance) :
  progress (pipe i) = Nat.min k 6 /\
  wellFormed (pipe i) /\
  (forall n q, pipe i = Adopting n q -> q <> NeverSettles) /\
  ~ unhandledRejection (pipe i) ->
  progress (pipe (act stuff imp Tick i)) = Nat.min (S k) 6 /\
  wellFormed (pipe (act stuff imp Tick i)) /\
  (forall n q, pipe (act stuff imp Tick i) = Adopting n q ->
               q <> NeverSettles) /\
  ~ unhandledRejection (pipe (act stuff imp Tick i)).
Proof.
  destruct i as [c [h t] p]. unfold unhandledRejection.
  cbn [pipe world closure].
  intros (Hk & Hwf & Hq & Hrej).
  destruct p as [n s | n q | s].
  - cbn in Hwf.
    destruct n as [|[|[|[|[|n]]]]]; [| | | | | lia]; destruct s;
      try contradiction.
    all: unfold_machine; unfold_handlers; cbn in *.
    all: break_match; cbn in *.
    all: repeat apply conj.
    all: try (intros; discriminate).
    all: try (intros [? ?]; discriminate).
    all: try (destruct k as [|[|[|[|[|[|k]]]]]]; cbn in *; lia).
    all: try lia.
    all: intros ? ? Hq'; injection Hq' as _ <-;
         first [ discriminate
               | apply afterImport_settles, loader_settles ].
  - cbn in Hwf. subst n. specialize (Hq _ _ eq_refl).
    destruct q; [| |contradiction]; unfold_machine; cbn in *.
    all: repeat apply conj.
    all: try (intros; discriminate).
    all: try (intros [? ?]; discriminate).
    all: try (destruct k as [|[|[|[|[|[|k]]]]]]; cbn in *; lia).
    all: try lia.
  - unfold_machine; cbn in *.
    repeat apply conj; try (intros; discriminate); try lia;
      try assumption.
Qed.

Lemma completes_run (schedule : list Action) (k : nat) (i : Instance) :
  progress (pipe i) = Nat.min k 6 /\
  wellFormed (pipe i) /\
  (forall n q, pipe i = Adopting n q -> q <> NeverSettles) /\
  ~ unhandledRejection (pipe i) ->
  progress (pipe (run stuff imp schedule i)) = Nat.min (k + ticks schedule) 6
  /\ wellFormed (pipe (run stuff imp schedule i)) /\
  ~ unhandledRejection (pipe (run stuff imp schedule i)).
Proof.
  revert k i. induction schedule as [|a rest IH]; intros k i Hi.
  - cbn. rewrite Nat.add_0_r. tauto.
  - rewrite run_cons, ticks_cons. destruct a; cbn [isTick].
    + replace (k + (1 + ticks rest)) with (S k + ticks rest) by lia.
      apply IH, completes_tick, Hi.
    + cbn [Nat.add]. apply IH. rewrite terminate_pipe. exact Hi.
Qed.

End Completion.

(** X15: the chain always completes.  Provided only that the promise of
    [importBundle] settles, and whatever any collaborator returns or
    throws, there is a number of jobs after which the chain of a request
    has reached its end with its last promise fulfilled, under any
    interleaving with termination events.  (The bound is counted in steps
    of the job machine, whose adoption step stands for the bookkeeping jobs
    of JavaScript; no particular number of JavaScript jobs is meant.) *)
Theorem X15_chain_completes_fulfilled
    (stuff : Stuff) (imp : Imports) (bundle : Value)
    (v : VatID) (inst : Instance) :
  createVatDynamically stuff imp bundle = Ret (v, inst) ->
  (forall h b options, importBundle imp h b options <> NeverSettles) ->
  exists bound,
    forall schedule,
      bound <= ticks schedule ->
      exists x, pipe (run stuff imp schedule inst) = Finished (Fulfilled x).
Proof.
  intros H Hload. exists 6. intros schedule Hticks.
  destruct (completes_run stuff imp Hload schedule 0 inst)
    as (Hk & Hwf & Hrej).
  { destruct (created _ _ _ _ _ H) as (m & _ & _ & ->).
    unfold unhandledRejection. cbn.
    repeat apply conj; try reflexivity; try lia; try (intros; discriminate).
    intros [e He]. discriminate. }
  cbn [Nat.add] in Hk.
  replace (Nat.min (ticks schedule) 6) with 6 in Hk by lia.
  destruct (pipe (run stuff imp schedule inst)) as [n s | n q | s].
  - destruct n as [|n]; cbn in Hk; [destruct s; discriminate|].
    assert (n = 4) by lia. subst n. cbn in Hwf. lia.
  - cbn in Hk, Hwf. subst n. discriminate.
  - destruct s as [x|e]; [exists x; reflexivity|].
    exfalso. apply Hrej. exists e. reflexivity.
Qed.

Lemma X15_witness :
  createVatDynamically Scenario.stuffExportFails Scenario.imports
    Scenario.bundleA
    = Ret ("v11", Scenario.started Scenario.bundleA) /\
  exists bound,
    forall schedule,
      bound <= ticks schedule ->
      exists x,
        pipe (run Scenario.stuffExportFails Scenario.imports schedule
                (Scenario.started Scenario.bundleA))
          = Finished (Fulfilled x).
Proof.
  split; [reflexivity|].
  apply (X15_chain_completes_fulfilled Scenario.stuffExportFails
           Scenario.imports Scenario.bundleA "v11"
           (Scenario.started Scenario.bundleA)).
  - reflexivity.
  - intros h b options. destruct b; discriminate.
Defined.

(* ================================================================== *)
(** ** One notification per request, and none after a failed attempt *)
(* ================================================================== *)

Section AfterTheAttempt.

Variable stuff : Stuff.
Variable imp : Imports.

(** Past [sendResponse], or with a rejection on its way to [.catch], no
    schedule makes another [newVatCallback] call. *)
Lemma no_further_callback (rest : list Action) (i : Instance) :
  (exists e, pipe i = Job 3 (Rejected e)) \/
  (exists s, pipe i = Job 4 s) \/
  (exists s, pipe i = Finished s) ->
  newVatCallbacks (run stuff imp rest i) = newVatCallbacks i.
Proof.
  intro Hquiet.
  assert (Hrun :
    ((exists e, pipe (run stuff imp rest i) = Job 3 (Rejected e)) \/
     (exists s, pipe (run stuff imp rest i) = Job 4 s) \/
     (exists s, pipe (run stuff imp rest i) = Finished s)) /\
    newVatCallbacks (run stuff imp rest i) = newVatCallbacks i).
  { apply (run_invariant stuff imp
             (fun j =>
                ((exists e, pipe j = Job 3 (Rejected e)) \/
                 (exists s, pipe j = Job 4 s) \/
                 (exists s, pipe j = Finished s)) /\
                newVatCallbacks j = newVatCallbacks i)).
    - intros j [Hp Hn]. destruct j as [c [h t] p]. cbn [pipe] in Hp.
      destruct Hp as [[e ->] | [[s ->] | [s ->]]].
      + unfold_machine. cbn. split; [|exact Hn].
        right. left. eexists. reflexivity.
      + destruct s as [x|e]; unfold_machine; unfold_handlers; cbn;
          filters; (split; [|exact Hn]); right; right; eexists;
          reflexivity.
      + unfold_machine. cbn. split; [|exact Hn].
        right. right. eexists. reflexivity.
    - intros e j [Hp Hn]. rewrite terminate_pipe, terminate_newVatCallbacks.
      split; assumption.
    - split; [exact Hquiet | reflexivity]. }
  apply Hrun.
Qed.

(** A rejection on its way to [.catch] is passed to [console.error]:
    [after] is the number of jobs still needed, two from the link of
    [sendResponse] and one from the link of [.catch]. *)
Lemma rejection_is_logged (e : Value) (rest : list Action) (after : nat)
    (i : Instance) :
  (after = 2 /\ pipe i = Job 3 (Rejected e)) \/
  (after = 1 /\ pipe i = Job 4 (Rejected e)) ->
  after <= ticks rest ->
  In (loggedError e) (history (world (run stuff imp rest i))).
Proof.
  intros Hstart Hticks.
  set (Q := fun (n : nat) (j : Instance) =>
    match n with
    | 0 => pipe j = Job 3 (Rejected e)
    | 1 => pipe j = Job 4 (Rejected e)
    | _ => In (loggedError e) (history (world j))
    end).
  assert (Hrun : forall sched n j,
            Q n j -> Q (n + ticks sched) (run stuff imp sched j)).
  { induction sched as [|x tl IH]; intros n j Hj.
    - cbn. rewrite Nat.add_0_r. exact Hj.
    - rewrite run_cons, ticks_cons. destruct x; cbn [isTick].
      + replace (n + (1 + ticks tl)) with (S n + ticks tl) by lia.
        apply IH. destruct n as [|[|n]]; unfold Q in *.
        * destruct j as [c [h t] p]. cbn [pipe] in Hj. subst p.
          reflexivity.
        * destruct j as [c [h t] p]. cbn [pipe] in Hj. subst p.
          unfold_machine; unfold_handlers. cbn.
          apply in_or_app. right. left. reflexivity.
        * destruct (act_history_grows stuff imp Tick j) as [extra ->].
          apply in_or_app. left. exact Hj.
      + cbn [Nat.add]. apply IH. destruct n as [|[|n]]; unfold Q in *.
        * rewrite terminate_pipe. exact Hj.
        * rewrite terminate_pipe. exact Hj.
        * destruct (act_history_grows stuff imp (Terminate error) j)
            as [extra ->].
          apply in_or_app. left. exact Hj. }
  destruct Hstart as [[-> Hp] | [-> Hp]].
  - specialize (Hrun rest 0 i Hp). cbn [Nat.add] in Hrun.
    destruct (ticks rest) as [|[|n]]; try lia. exact Hrun.
  - specialize (Hrun rest 1 i Hp).
    replace (1 + ticks rest) with (S (ticks rest)) in Hrun by lia.
    destruct (ticks rest) as [|n]; try lia. exact Hrun.
Qed.

End AfterTheAttempt.

(** C1 (amended): a call to [createVatDynamically], with any bundle and
    under any interleaving of jobs and termination events, makes at most
    one [newVatCallback] call of [queueToExport]; a termination event never
    makes one; and when the loader settles and the notification step does
    not throw ([addExport], [vatNameToID], [queueToExport] return; the
    rejection values of the model always stringify), exactly one is made,
    for the returned vat id, once five jobs have run, and it returns.  When
    the notification step throws, nothing more is sent and the error is
    passed to [console.error]: after a throw of [addExport], or of the
    [vatAdmin] lookup of [sendResponse], no [newVatCallback] call is ever
    made; after a throw of [queueToExport], that throwing call remains the
    only one. *)
Theorem C1_at_most_one_newVatCallback
    (stuff : Stuff) (imp : Imports) (bundle : Value)
    (v : VatID) (inst : Instance) :
  createVatDynamically stuff imp bundle = Ret (v, inst) ->
  (forall schedule,
     length (newVatCallbacks (run stuff imp schedule inst)) <= 1) /\
  (forall error i,
     newVatCallbacks (act stuff imp (Terminate error) i)
       = newVatCallbacks i) /\
  ((forall h b options, importBundle imp h b options <> NeverSettles) ->
   (forall h v' slot, exists k, addExport stuff h v' slot = Ret k) ->
   (forall h, exists a, vatNameToID stuff h "vatAdmin" = Ret a) ->
   (forall h a slot method args policy,
      queueToExport stuff h a slot method args policy = Ret tt) ->
   forall schedule,
     5 <= ticks schedule ->
     exists a result slots,
       newVatCallbacks (run stuff imp schedule inst)
         = [creationMessage imp v a result slots (Ret tt)]) /\
  (forall schedule x e rest,
     pipe (run stuff imp schedule inst) = Job 2 (Fulfilled x) ->
     addExport stuff (history (world (run stuff imp schedule inst))) v
       (makeVatRootObjectSlot imp) = Throw e ->
     newVatCallbacks (run stuff imp (schedule ++ Tick :: rest)%list inst)
       = [] /\
     (2 <= ticks rest ->
      In (loggedError e)
         (history
            (world (run stuff imp (schedule ++ Tick :: rest)%list inst))))) /\
  (forall schedule args e rest,
     pipe (run stuff imp schedule inst) = Job 3 (Fulfilled args) ->
     vatNameToID stuff (history (world (run stuff imp schedule inst)))
       "vatAdmin" = Throw e ->
     newVatCallbacks (run stuff imp (schedule ++ Tick :: rest)%list inst)
       = [] /\
     (1 <= ticks rest ->
      In (loggedError e)
         (history
            (world (run stuff imp (schedule ++ Tick :: rest)%list inst))))) /\
  (forall schedule args a e rest,
     pipe (run stuff imp schedule inst) = Job 3 (Fulfilled args) ->
     vatNameToID stuff (history (world (run stuff imp schedule inst)))
       "vatAdmin" = Ret a ->
     queueToExport stuff
       (history (world (run stuff imp schedule inst))
        ++ [CallVatNameToID "vatAdmin" (Ret a)])%list
       a (makeVatRootObjectSlot imp) "newVatCallback" args "logFailure"
       = Throw e ->
     newVatCallbacks (run stuff imp (schedule ++ Tick :: rest)%list inst)
       = [CallQueueToExport a (makeVatRootObjectSlot imp) "newVatCallback"
            args "logFailure" (Throw e)] /\
     (1 <= ticks rest ->
      In (loggedError e)
         (history
            (world (run stuff imp (schedule ++ Tick :: rest)%list inst))))).
Proof.
  intro H.
  assert (Hnone : forall schedule,
            progress (pipe (run stuff imp schedule inst)) <= 4 ->
            newVatCallbacks (run stuff imp schedule inst) = []).
  { intro schedule.
    pose proof (Inv_run stuff imp schedule 0 inst (created_Inv _ _ _ _ _ H))
      as (_ & Hn & _).
    exact Hn. }
  assert (Hv : forall schedule,
            vatID (closure (run stuff imp schedule inst)) = v).
  { intro schedule. rewrite run_closure.
    destruct (created _ _ _ _ _ H) as (m & _ & _ & ->). reflexivity. }
  repeat apply conj.
  - intro schedule.
    pose proof (Inv_run stuff imp schedule 0 inst (created_Inv _ _ _ _ _ H))
      as (_ & _ & Hone & _).
    exact Hone.
  - intros error i. apply terminate_newVatCallbacks.
  - intros Hload Hexp Hadm Hq schedule Hticks.
    exact (exactly_one_when_notification_succeeds stuff imp Hload Hexp Hadm Hq
             bundle v inst schedule H Hticks).
  - intros schedule x e rest Hp Hthrow.
    rewrite run_append, run_cons.
    specialize (Hnone schedule). specialize (Hv schedule).
    destruct (run stuff imp schedule inst) as [c [h t] p].
    cbn [pipe world history closure] in *. subst p.
    specialize (Hnone ltac:(cbn; lia)).
    unfold_machine; unfold_handlers. cbn. rewrite Hv, Hthrow. cbn.
    split.
    + rewrite no_further_callback; [|left; eexists; reflexivity].
      filters. exact Hnone.
    + intro Hticks. apply (rejection_is_logged stuff imp e rest 2);
        [left; split; reflexivity | exact Hticks].
  - intros schedule args e rest Hp Hthrow.
    rewrite run_append, run_cons.
    specialize (Hnone schedule).
    destruct (run stuff imp schedule inst) as [c [h t] p].
    cbn [pipe world history closure] in *. subst p.
    specialize (Hnone ltac:(cbn; lia)).
    unfold_machine; unfold_handlers. cbn. rewrite Hthrow. cbn.
    split.
    + rewrite no_further_callback; [|right; left; eexists; reflexivity].
      filters. exact Hnone.
    + intro Hticks. apply (rejection_is_logged stuff imp e rest 1);
        [right; split; reflexivity | exact Hticks].
  - intros schedule args a e rest Hp Ha Hthrow.
    rewrite run_append, run_cons.
    specialize (Hnone schedule).
    destruct (run stuff imp schedule inst) as [c [h t] p].
    cbn [pipe world history closure] in *. subst p.
    specialize (Hnone ltac:(cbn; lia)).
    unfold_machine; unfold_handlers. cbn. rewrite Ha. cbn.
    rewrite Hthrow. cbn.
    split.
    + rewrite no_further_callback; [|right; left; eexists; reflexivity].
      filters. rewrite Hnone. reflexivity.
    + intro Hticks. apply (rejection_is_logged stuff imp e rest 1);
        [right; split; reflexivity | exact Hticks].
Qed.

Lemma C1_witness :
  createVatDynamically Scenario.stuff Scenario.imports Scenario.bundleA
    = Ret ("v11", Scenario.started Scenario.bundleA) /\
  length
    (newVatCallbacks
       (run Scenario.stuff Scenario.imports
          [Tick; Tick; Tick; Terminate (JError "Error" "boom"); Tick; Tick;
           Terminate JUndefined; Tick]
          (Scenario.started Scenario.bundleA))) <= 1 /\
  exists a result slots,
    newVatCallbacks
      (run Scenario.stuff Scenario.imports
         [Tick; Tick; Tick; Terminate (JError "Error" "boom"); Tick; Tick;
          Terminate JUndefined; Tick]
         (Scenario.started Scenario.bundleA))
      = [creationMessage Scenario.imports "v11" a result slots (Ret tt)].
Proof.
  split; [reflexivity|].
  destruct (C1_at_most_one_newVatCallback Scenario.stuff Scenario.imports
              Scenario.bundleA "v11" (Scenario.started Scenario.bundleA)
              eq_refl) as (Hmost & _ & Hone & _).
  split; [apply Hmost|].
  apply Hone.
  - intros h b options. destruct b; discriminate.
  - intros h v' slot. exists "ko42". reflexivity.
  - intros h. exists "v2". reflexivity.
  - intros. reflexivity.
  - vm_compute. lia.
Defined.
